(** * Temporian: operator construction and numpy implementations

    A shallow embedding of
    - [temporian/core/operators/combine.py]  (module [Combine]),
    - [temporian/core/operators/where.py]    (module [Where]),
    - [temporian/implementation/numpy/operators/where.py] (module [WhereNumpy]),
    - [temporian/implementation/numpy/operators/cast.py]  (module [CastNumpy]).

    Python exceptions are values of [exception]; a function that may raise
    returns a [result]; code that mutates [self] or allocates objects runs in
    the state-and-exception monad [M]. *)

From stdpp Require Import gmap strings list fin_maps pretty.
From Stdlib Require Import Floats.

(** ** Feature data types *)

(** Modelled from the spec: [temporian.core.data.dtype.DType] is imported by
    the sources but not part of them; the closed enumeration of section 3. *)
Inductive DType := BOOLEAN | INT32 | INT64 | FLOAT32 | FLOAT64 | STRING.

#[global] Instance DType_eq_dec : EqDecision DType.
Proof. solve_decision. Defined.

(** ** Schema *)

(** Modelled from the spec: the [Schema] of section 3: the ordered features,
    the ordered index components and the unix-timestamp flag. *)
Record Schema := mkSchema {
  features : list (string * DType);
  indexes : list (string * DType);
  is_unix_timestamp : bool;
}.

Definition feature_names (s : Schema) : list string := (features s).*1.
Definition feature_dtypes (s : Schema) : list DType := (features s).*2.

(** ** Exceptions *)

(** The texts of the [raise] statements of the sources, with the values they
    interpolate. *)
Inductive message :=
  | AtLeastTwoArguments
      (* "At least two arguments should be provided" *)
  | TooManyArguments (limit : nat)
      (* "Too many (>{MAX_NUM_ARGUMENTS}) arguments provided" *)
  | InputNotOneBoolean (dtypes : list DType)
      (* "Input should have only 1 boolean feature but got ..." *)
  | ArgumentNotOneFeature (arg_name : string) (count : nat)
      (* "Argument '{arg_name}' should have only 1 feature but got ..." *)
  | BranchDTypesDiffer (true_dtype false_dtype : DType)
      (* "Arguments 'on_true' (dtype=...) and 'on_false' (dtype=...) should
         have the same dtype. ..." *)
  | OverflowCasting (origin_dtype dst_dtype : DType)
      (* "Overflow casting {origin_dtype}->{dst_dtype} {data=}" *)
  | TakesPositionalArguments (takes given : nat).
      (* "__init__() takes 1 positional argument but 2 were given" *)

(** [ValueError], [TypeError], [KeyError], [IndexError] and [AssertionError]
    are Python's. The last three constructors are the failures of functions
    the sources call but do not contain, under the names section 7 of the
    spec gives them. *)
Inductive exception :=
  | ValueError (msg : message)
  | TypeError (msg : message)
  | KeyError (key : string)
  | IndexError
  | AssertionError
  | SchemaMismatchError
  | SamplingMismatchError
  | MalformedOperatorError.

#[global] Instance message_eq_dec : EqDecision message.
Proof. solve_decision. Defined.
#[global] Instance exception_eq_dec : EqDecision exception.
Proof. solve_decision. Defined.

Inductive result (A : Type) :=
  | Ok (a : A)
  | Raise (e : exception).
Arguments Ok {A} a.
Arguments Raise {A} e.

#[global] Instance result_ret : MRet result := λ A a, Ok a.
#[global] Instance result_bind : MBind result := λ A B f r,
  match r with
  | Ok a => f a
  | Raise e => Raise e
  end.

(** ** The state-and-exception monad *)

Definition M (S A : Type) : Type := S → result (A * S).

#[global] Instance M_ret {S} : MRet (M S) := λ A a s, Ok (a, s).
#[global] Instance M_bind {S} : MBind (M S) := λ A B f c s,
  match c s with
  | Ok (a, s') => f a s'
  | Raise e => Raise e
  end.

Definition raise {S A} (e : exception) : M S A := λ _, Raise e.
Definition get {S} : M S S := λ s, Ok (s, s).
Definition modify {S} (f : S → S) : M S unit := λ s, Ok (tt, f s).
Definition lift {S A} (r : result A) : M S A := λ s,
  match r with
  | Ok a => Ok (a, s)
  | Raise e => Raise e
  end.

(** A Python dict with string keys, in insertion order. *)
Fixpoint dict_get {A} (key : string) (d : list (string * A)) : option A :=
  match d with
  | [] => None
  | (k, v) :: d' => if decide (k = key) then Some v else dict_get key d'
  end.

(** [d[key] = value] *)
Fixpoint dict_set {A} (key : string) (value : A) (d : list (string * A))
    : list (string * A) :=
  match d with
  | [] => [(key, value)]
  | (k, v) :: d' =>
      if decide (k = key) then (k, value) :: d'
      else (k, v) :: dict_set key value d'
  end.

(** [d[key]]: raises [KeyError] when the key is absent. *)
Definition dict_item {S A} (key : string) (d : list (string * A)) : M S A :=
  match dict_get key d with
  | Some v => mret v
  | None => raise (KeyError key)
  end.

(** ** Nodes and operators *)

(** Modelled from the spec: the [EventSetNode] of section 3. Objects that are
    compared by identity (the sampling, the creating operator) are
    represented by the identifier they received when they were allocated. *)
Record EventSetNode := mkNode {
  schema : Schema;
  sampling_node : nat;
  creator : option nat;
}.

(** Python scalars, as they are passed for [on_true] and [on_false]. *)
Inductive pyvalue :=
  | PyNone
  | PyBool (b : bool)
  | PyInt (z : Z)
  | PyFloat (f : float)
  | PyStr (s : string).

(** The operator classes of the sources. *)
Inductive OperatorClass := CombineClass | WhereClass.

#[global] Instance OperatorClass_eq_dec : EqDecision OperatorClass.
Proof. solve_decision. Defined.

(** Modelled from the spec: the [Operator] of section 3, with the
    [_on_attributes] dict the [Where] subclass adds to it. *)
Record Operator := mkOperator {
  op_class : OperatorClass;
  op_id : nat;
  inputs : list (string * EventSetNode);
  outputs : list (string * EventSetNode);
  attributes : list (string * pyvalue);
  _on_attributes : list (string * pyvalue);
}.

(** Object allocation: the next free identifier. *)
Record World := mkWorld { next_id : nat }.

(** The state of a running [__init__]: the object under construction and the
    allocator. *)
Record cstate := mkCstate { self : Operator; world : World }.

Definition set_self (f : Operator → Operator) : M cstate unit :=
  modify (λ st, mkCstate (f (self st)) (world st)).

Definition fresh : M cstate nat := λ st,
  Ok (next_id (world st), mkCstate (self st) (mkWorld (S (next_id (world st))))).

(** Modelled from the spec: the attribute type tags of section 6. *)
Inductive AttributeType :=
  | INTEGER_64 | FLOAT_64 | STRING_TYPE | BOOL | LIST | ANY.

(** Modelled from the spec: the operator definition of sections 3 and 6
    ([pb.OperatorDef]); a slot is a key with its [is_optional] flag. *)
Record OperatorDef := mkOperatorDef {
  key : string;
  def_inputs : list (string * bool);
  def_outputs : list string;
  def_attributes : list (string * AttributeType * bool);
}.

Module OperatorBase.

(** Modelled from the spec: [Operator.__init__], which starts an operator
    with no slot populated. *)
Definition __init__ : M cstate unit :=
  set_self (λ op, mkOperator (op_class op) (op_id op) [] [] [] (_on_attributes op)).

(** Modelled from the spec: [add_input], [add_output] and [add_attribute]
    populate one slot (section 4.2, step 2). *)
Definition add_input (k : string) (node : EventSetNode) : M cstate unit :=
  set_self (λ op, mkOperator (op_class op) (op_id op) (inputs op ++ [(k, node)])
                    (outputs op) (attributes op) (_on_attributes op)).

Definition add_output (k : string) (node : EventSetNode) : M cstate unit :=
  set_self (λ op, mkOperator (op_class op) (op_id op) (inputs op)
                    (outputs op ++ [(k, node)]) (attributes op)
                    (_on_attributes op)).

Definition add_attribute (k : string) (v : pyvalue) : M cstate unit :=
  set_self (λ op, mkOperator (op_class op) (op_id op) (inputs op) (outputs op)
                    (attributes op ++ [(k, v)]) (_on_attributes op)).

(** Every declared slot is populated exactly once, or not at all when it is
    optional, and no other slot is populated. *)
Definition slots_ok (declared : list (string * bool))
    (populated : list string) : bool :=
  forallb (λ '(k, is_optional),
             match length (filter (λ p, p = k) populated) with
             | 0 => is_optional
             | 1 => true
             | _ => false
             end) declared
  && forallb (λ k, bool_decide (k ∈ declared.*1)) populated.

(** Modelled from the spec: [check] (section 4.2, step 3); its failure is
    the [MalformedOperatorError] of section 7. *)
Definition check (definition : OperatorDef) : M cstate unit :=
  st ← get;
  let op := self st in
  if slots_ok (def_inputs definition) (inputs op).*1
     && slots_ok ((λ k, (k, false)) <$> def_outputs definition) (outputs op).*1
     && slots_ok ((λ a, (a.1.1, a.2)) <$> def_attributes definition)
          (attributes op).*1
  then mret tt
  else raise MalformedOperatorError.

(** [cls(...)]: allocate the object, then run [__init__] on it. *)
Definition new (cls : OperatorClass) (init : M cstate unit)
    : M World Operator := λ w,
  match init (mkCstate (mkOperator cls (next_id w) [] [] [] [])
                       (mkWorld (S (next_id w)))) with
  | Ok (_, st) => Ok (self st, world st)
  | Raise e => Raise e
  end.

End OperatorBase.

(** Modelled from the spec: [Schema.check_compatible_features] (section 4.1):
    it fails unless both schemas have the same feature names and dtypes, and,
    when [check_order] is set, in the same order. *)
Definition same_feature_set (a b : list (string * DType)) : bool :=
  forallb (λ x, bool_decide (x ∈ b)) a && forallb (λ x, bool_decide (x ∈ a)) b.

Definition check_compatible_features (this other : Schema)
    (check_order : bool) : result unit :=
  if (if check_order then bool_decide (features this = features other)
      else same_feature_set (features this) (features other))
  then Ok tt
  else Raise SchemaMismatchError.

(** Modelled from the spec: [EventSetNode.check_same_sampling] (section 4.1):
    two nodes have the same sampling when they reference the same sampling
    object. *)
Definition check_same_sampling (this other : EventSetNode) : result unit :=
  if decide (sampling_node this = sampling_node other) then Ok tt
  else Raise SamplingMismatchError.

(** Modelled from the spec: the two node factories of
    [temporian.core.data.node]. The first allocates a new sampling, the second
    takes the sampling, the indexes and the unix flag of [sampling_node]. *)
Definition create_node_new_features_new_sampling
    (features : list (string * DType)) (indexes : list (string * DType))
    (is_unix_timestamp : bool) (creator : Operator) : M cstate EventSetNode :=
  sampling ← fresh;
  mret (mkNode (mkSchema features indexes is_unix_timestamp) sampling
          (Some (op_id creator))).

Definition create_node_new_features_existing_sampling
    (features : list (string * DType)) (sampling : EventSetNode)
    (creator : Operator) : EventSetNode :=
  mkNode (mkSchema features (indexes (schema sampling))
            (is_unix_timestamp (schema sampling)))
    (sampling_node sampling) (Some (op_id creator)).

(** ** [temporian/core/operators/combine.py] *)

Module Combine.

Definition MAX_NUM_ARGUMENTS : nat := 30.

Definition build_op_definition : OperatorDef :=
  mkOperatorDef "COMBINE"
    ((λ idx, ("input_" +:+ pretty idx, bool_decide (2 ≤ idx)))
       <$> seq 0 MAX_NUM_ARGUMENTS)
    ["output"]
    [].

(** A positional argument of a call: the only one the sources pass is the
    tuple [inputs] of [combine]. *)
Inductive argument := Tuple (items : list EventSetNode).

(** The [for key, input in inputs.items()] loop of [__init__]; [first_input]
    and [all_unix_timestamp] are its two local variables. *)
Fixpoint for_inputs (items : list (string * EventSetNode))
    (first_input : option EventSetNode) (all_unix_timestamp : bool)
    : M cstate (option EventSetNode * bool) :=
  match items with
  | [] => mret (first_input, all_unix_timestamp)
  | (k, input) :: items =>
      let first_input :=
        match first_input with
        | None => input
        | Some first_input => first_input
        end in
      lift (check_compatible_features (schema first_input) (schema input)
              false);;
      let all_unix_timestamp :=
        all_unix_timestamp && is_unix_timestamp (schema input) in
      OperatorBase.add_input k input;;
      for_inputs items (Some first_input) all_unix_timestamp
  end.

(** The signature takes keyword arguments only and has no positional
    parameter besides [self], so a call that passes one raises [TypeError]
    before the body runs. *)
Definition __init__ (args : list argument)
    (inputs : list (string * EventSetNode)) : M cstate unit :=
  match args with
  | _ :: _ =>
      raise (TypeError (TakesPositionalArguments 1 (S (length args))))
  | [] =>
      OperatorBase.__init__;;
      if bool_decide (length inputs < 2) then
        raise (ValueError AtLeastTwoArguments)
      else if bool_decide (MAX_NUM_ARGUMENTS ≤ length inputs) then
        raise (ValueError (TooManyArguments MAX_NUM_ARGUMENTS))
      else
        '(first_input, all_unix_timestamp) ← for_inputs inputs None true;
        match first_input with
        | None => raise AssertionError
        | Some first_input =>
            st ← get;
            output ← create_node_new_features_new_sampling
                       (features (schema first_input))
                       (indexes (schema first_input))
                       all_unix_timestamp (self st);
            OperatorBase.add_output "output" output;;
            OperatorBase.check build_op_definition
        end
  end.

(** The call of the class: positional and keyword arguments. *)
Definition Combine (args : list argument)
    (inputs : list (string * EventSetNode)) : M World Operator :=
  OperatorBase.new CombineClass (__init__ args inputs).

(** The public function. Its decorators, [rtcheck] and [compile], are not in
    the sources; this is its body, on nodes. *)
Definition combine (inputs : list EventSetNode) : M World EventSetNode :=
  if bool_decide (length inputs = 1) then
    match inputs !! 0 with
    | Some x => mret x
    | None => raise IndexError
    end
  else
    op ← Combine [Tuple inputs] [];
    dict_item "output" (outputs op).

End Combine.

(** ** [temporian/core/operators/where.py] *)

Module Where.

(** [Union[EventSetNode, Any]] *)
Inductive arg :=
  | Node (node : EventSetNode)
  | Value (value : pyvalue).

Definition build_op_definition : OperatorDef :=
  mkOperatorDef "WHERE"
    [("input", false); ("on_true", true); ("on_false", true)]
    ["output"]
    [("on_true", ANY, true); ("on_false", ANY, true)].

Definition output_feature_name : M cstate string :=
  st ← get;
  input ← dict_item "input" (inputs (self st));
  match feature_names (schema input) !! 0 with
  | Some name => mret name
  | None => raise IndexError
  end.

Section with_dtype_inference.

(** [DType.infer_from_value] is not in the sources: it is a parameter. *)
Variable infer_from_value : pyvalue → result DType.

Definition _add_argument (arg_value : arg) (arg_name : string)
    (input : EventSetNode) : M cstate DType :=
  match arg_value with
  | Node arg_value =>
      lift (check_same_sampling input arg_value);;
      let dtypes := feature_dtypes (schema arg_value) in
      if bool_decide (length dtypes ≠ 1) then
        raise (ValueError (ArgumentNotOneFeature arg_name (length dtypes)))
      else
        OperatorBase.add_input arg_name arg_value;;
        match dtypes !! 0 with
        | Some dtype => mret dtype
        | None => raise IndexError
        end
  | Value arg_value =>
      dtype ← lift (infer_from_value arg_value);
      set_self (λ op, mkOperator (op_class op) (op_id op) (inputs op)
                        (outputs op) (attributes op)
                        (dict_set arg_name arg_value (_on_attributes op)));;
      OperatorBase.add_attribute arg_name arg_value;;
      mret dtype
  end.

Definition __init__ (input : EventSetNode) (on_true on_false : arg)
    : M cstate unit :=
  OperatorBase.__init__;;
  let dtypes := feature_dtypes (schema input) in
  if bool_decide (length dtypes ≠ 1)
     || bool_decide (dtypes !! 0 ≠ Some BOOLEAN) then
    raise (ValueError (InputNotOneBoolean dtypes))
  else
    OperatorBase.add_input "input" input;;
    set_self (λ op, mkOperator (op_class op) (op_id op) (inputs op)
                      (outputs op) (attributes op) []);;
    true_dtype ← _add_argument on_true "on_true" input;
    false_dtype ← _add_argument on_false "on_false" input;
    if bool_decide (true_dtype ≠ false_dtype) then
      raise (ValueError (BranchDTypesDiffer true_dtype false_dtype))
    else
      name ← output_feature_name;
      st ← get;
      OperatorBase.add_output "output"
        (create_node_new_features_existing_sampling [(name, true_dtype)]
           input (self st));;
      OperatorBase.check build_op_definition.

(** [Where(input=..., on_true=..., on_false=...)] *)
Definition Where (input : EventSetNode) (on_true on_false : arg)
    : M World Operator :=
  OperatorBase.new WhereClass (__init__ input on_true on_false).

(** The public function; the [assert isinstance(input, EventSetNode)] holds
    by the type of [input]. *)
Definition where_ (input : EventSetNode) (on_true on_false : arg)
    : M World EventSetNode :=
  op ← Where input on_true on_false;
  dict_item "output" (outputs op).

End with_dtype_inference.

End Where.

(** ** Backend data *)

(** One component of an index key; an index key is the tuple of them. *)
Inductive IndexValue :=
  | IdxInt (z : Z)
  | IdxStr (s : string).

#[global] Instance IndexValue_eq_dec : EqDecision IndexValue.
Proof. solve_decision. Defined.

#[global] Instance IndexValue_countable : Countable IndexValue.
Proof.
  refine (inj_countable'
            (λ v, match v with IdxInt z => inl z | IdxStr s => inr s end)
            (λ x, match x with inl z => IdxInt z | inr s => IdxStr s end) _).
  by intros [].
Defined.

Abbreviation IndexKey := (list IndexValue).

(** What the implementations use of numpy. The elements of an array are
    compared with the limits of a dtype, which are integers, by numpy's [<]
    and [>]; [astype] converts an array to the numpy type of a [DType]
    ([DTYPE_REVERSE_MAPPING]) and [array_dtype] reads the [DType] of an array
    back ([NumpyFeature.dtype]). *)
Class Numpy (ndarray : Type) := {
  scalar : Type;
  array_dtype : ndarray → DType;
  tolist : ndarray → list scalar;
  astype : ndarray → DType → ndarray;
  less : scalar → Z → bool;
  greater : scalar → Z → bool;
}.

(** ** [temporian/implementation/numpy/operators/where.py] *)

Module WhereNumpy.

(** Modelled from the spec: the [IndexData] and [EventSet] of section 3. The
    timestamps are a [float64] array. *)
Record IndexData (ndarray : Type) := mkIndexData {
  idx_features : list ndarray;
  timestamps : list float;
  idx_schema : Schema;
}.
Arguments mkIndexData {ndarray} _ _ _.
Arguments idx_features {ndarray} _.
Arguments timestamps {ndarray} _.
Arguments idx_schema {ndarray} _.

Record EventSet (ndarray : Type) := mkEventSet {
  data : gmap IndexKey (IndexData ndarray);
  evset_schema : Schema;
}.
Arguments mkEventSet {ndarray} _ _.
Arguments data {ndarray} _.
Arguments evset_schema {ndarray} _.

Section implementation.

Context {ndarray : Type}.

(** Modelled from the spec: [EventSet.set_index_value] stores the data of
    one index key. *)
Definition set_index_value (index_key : IndexKey)
    (value : IndexData ndarray) (evset : EventSet ndarray)
    : EventSet ndarray :=
  mkEventSet (<[index_key := value]> (data evset)) (evset_schema evset).

(** Modelled from the spec: [OperatorImplementation.output_schema] is the
    schema of the operator's output node of that name. *)
Definition output_schema (operator : Operator) (k : string)
    : result Schema :=
  match dict_get k (outputs operator) with
  | Some node => Ok (schema node)
  | None => Raise (KeyError k)
  end.

Definition __init__ (operator : Operator) : result Operator :=
  if decide (op_class operator = WhereClass) then Ok operator
  else Raise AssertionError.

Definition __call__ (operator : Operator) (input : EventSet ndarray)
    : result (gmap string (EventSet ndarray)) :=
  (if decide (op_class operator = WhereClass) then Ok tt
   else Raise AssertionError);;
  output_schema ← output_schema operator "output";
  let output_evset := mkEventSet ∅ output_schema in
  let output_evset :=
    map_fold (λ index_key index_data output_evset,
                set_index_value index_key
                  (mkIndexData [] [1%float] output_schema) output_evset)
      output_evset (data input) in
  mret {[ "output" := output_evset ]}.

End implementation.

End WhereNumpy.

(** ** [temporian/implementation/numpy/operators/cast.py] *)

Module CastNumpy.

(** Modelled from the spec: the two attributes of [CastOperator] that the
    implementation reads. *)
Record CastOperator := mkCastOperator {
  target_dtypes : gmap string DType;
  check_overflow : bool;
}.

(** Modelled from the spec: [NumpyFeature] and [NumpyEvent], the named
    feature arrays of each index key. Both are objects: [feature_id] and
    [event_id] are their identities. *)
Record NumpyFeature (ndarray : Type) := mkNumpyFeature {
  feature_id : nat;
  name : string;
  data : ndarray;
}.
Arguments mkNumpyFeature {ndarray} _ _ _.
Arguments feature_id {ndarray} _.
Arguments name {ndarray} _.
Arguments data {ndarray} _.

Record NumpyEvent (ndarray : Type) := mkNumpyEvent {
  event_id : nat;
  event_data : list (IndexKey * list (NumpyFeature ndarray));
  sampling : nat;
}.
Arguments mkNumpyEvent {ndarray} _ _ _.
Arguments event_id {ndarray} _.
Arguments event_data {ndarray} _.
Arguments sampling {ndarray} _.

(** [np.iinfo] and [np.finfo]: the least and the greatest value of a numpy
    type. The limits of the float types are integers too. *)
Record limits := mkLimits { min : Z; max : Z }.

Definition iinfo_int32 : limits := mkLimits (- 2 ^ 31) (2 ^ 31 - 1).
Definition iinfo_int64 : limits := mkLimits (- 2 ^ 63) (2 ^ 63 - 1).
Definition finfo_float32 : limits :=
  mkLimits (- ((2 ^ 24 - 1) * 2 ^ 104)) ((2 ^ 24 - 1) * 2 ^ 104).
Definition finfo_float64 : limits :=
  mkLimits (- ((2 ^ 53 - 1) * 2 ^ 971)) ((2 ^ 53 - 1) * 2 ^ 971).

Definition dtype_name (dtype : DType) : string :=
  match dtype with
  | BOOLEAN => "DType.BOOLEAN"
  | INT32 => "DType.INT32"
  | INT64 => "DType.INT64"
  | FLOAT32 => "DType.FLOAT32"
  | FLOAT64 => "DType.FLOAT64"
  | STRING => "DType.STRING"
  end.

(** [self._dtype_limits[dtype]] *)
Definition _dtype_limits (dtype : DType) : result limits :=
  match dtype with
  | INT32 => Ok iinfo_int32
  | INT64 => Ok iinfo_int64
  | FLOAT32 => Ok finfo_float32
  | FLOAT64 => Ok finfo_float64
  | _ => Raise (KeyError (dtype_name dtype))
  end.

Definition _nocheck_dtypes : list DType := [BOOLEAN; STRING].

Definition _can_overflow (origin_dtype dst_dtype : DType) : result bool :=
  if bool_decide (origin_dtype ∈ _nocheck_dtypes)
     || bool_decide (dst_dtype ∈ _nocheck_dtypes) then
    Ok false
  else
    origin ← _dtype_limits origin_dtype;
    dst ← _dtype_limits dst_dtype;
    mret (max origin >? max dst)%Z.

Section implementation.

Context {ndarray : Type} `{!Numpy ndarray}.

Definition dtype (feature : NumpyFeature ndarray) : DType :=
  array_dtype (data feature).

(** [(data < min) | (data > max)], for one element. *)
Definition outside (dst : limits) (x : scalar) : bool :=
  less x (min dst) || greater x (max dst).

Definition _check_overflow (data : ndarray) (origin_dtype dst_dtype : DType)
    : result unit :=
  can_overflow ← _can_overflow origin_dtype dst_dtype;
  if (can_overflow : bool) then
    dst ← _dtype_limits dst_dtype;
    if existsb (outside dst) (tolist data) then
      Raise (ValueError (OverflowCasting origin_dtype dst_dtype))
    else Ok tt
  else Ok tt.

(** Modelled from the spec: [NumpyEvent.dtypes], the dtype of each feature
    name; every index key holds the features of the schema, so they are read
    from the first one. *)
Definition dtypes (event : NumpyEvent ndarray) : list (string * DType) :=
  match event_data event with
  | [] => []
  | (_, features) :: _ => (λ feature, (name feature, dtype feature)) <$> features
  end.

(** [target_dtypes[feature_name]] *)
Definition target_dtype (operator : CastOperator) (feature_name : string)
    : result DType :=
  match target_dtypes operator !! feature_name with
  | Some dtype => Ok dtype
  | None => Raise (KeyError feature_name)
  end.

(** The [all(...)] of [__call__]; it stops at the first feature whose dtype
    changes. *)
Fixpoint all_unchanged (operator : CastOperator)
    (items : list (string * DType)) : result bool :=
  match items with
  | [] => Ok true
  | (feature_name, orig_dtype) :: items =>
      dst_dtype ← target_dtype operator feature_name;
      if decide (orig_dtype = dst_dtype) then all_unchanged operator items
      else Ok false
  end.

Definition alloc : M World nat := λ w,
  Ok (next_id w, mkWorld (S (next_id w))).

(** The body of [for feature in features]: the feature appended to
    [output.data[event_index]]. *)
Definition cast_feature (operator : CastOperator)
    (feature : NumpyFeature ndarray) : M World (NumpyFeature ndarray) :=
  dst_dtype ← lift (target_dtype operator (name feature));
  if decide (dtype feature = dst_dtype) then mret feature
  else
    (if check_overflow operator then
       lift (_check_overflow (data feature) (dtype feature) dst_dtype)
     else mret tt);;
    id ← alloc;
    mret (mkNumpyFeature id (name feature) (astype (data feature) dst_dtype)).

(** The body of [for event_index, features in event.data.items()]. The keys
    of a dict are distinct, so each [output.data[event_index] = []] adds an
    item after those already there. *)
Definition cast_index (operator : CastOperator)
    (item : IndexKey * list (NumpyFeature ndarray))
    : M World (IndexKey * list (NumpyFeature ndarray)) :=
  features ← mapM (cast_feature operator) item.2;
  mret (item.1, features).

Definition __call__ (operator : CastOperator) (event : NumpyEvent ndarray)
    : M World (gmap string (NumpyEvent ndarray)) :=
  unchanged ← lift (all_unchanged operator (dtypes event));
  if (unchanged : bool) then mret {[ "event" := event ]}
  else
    id ← alloc;
    output_data ← mapM (cast_index operator) (event_data event);
    mret {[ "event" := mkNumpyEvent id output_data (sampling event) ]}.

End implementation.

End CastNumpy.

(** ** Notions used in the statements *)

Module CombineSpec.

(** What [check_compatible_features] accepts between the first input and
    another one. *)
Definition compatible (first_input : EventSetNode)
    (item : string * EventSetNode) : bool :=
  same_feature_set (features (schema first_input)) (features (schema item.2)).

Definition unix (item : string * EventSetNode) : bool :=
  is_unix_timestamp (schema item.2).

Definition add_inputs (items : list (string * EventSetNode)) (op : Operator)
    : Operator :=
  mkOperator (op_class op) (op_id op) (inputs op ++ items) (outputs op)
    (attributes op) (_on_attributes op).

(** The output node and the operator that a successful [Combine.__init__]
    leaves behind. *)
Definition output_node (w : World) (first_input : EventSetNode)
    (items : list (string * EventSetNode)) : EventSetNode :=
  mkNode (mkSchema (features (schema first_input))
            (indexes (schema first_input)) (forallb unix items))
    (S (next_id w)) (Some (next_id w)).

Definition built (w : World) (first_input : EventSetNode)
    (items : list (string * EventSetNode)) : Operator :=
  mkOperator CombineClass (next_id w) items
    [("output", output_node w first_input items)] [] [].



End CombineSpec.

Module WhereSpec.

Import Where.

(** The dtype-constraint errors of section 7 of the spec: the [ValueError]s
    of the dtype and arity checks of [Where]. *)
Definition DTypeConstraintError (e : exception) : bool :=
  match e with
  | ValueError (InputNotOneBoolean _) => true
  | ValueError (ArgumentNotOneFeature _ _) => true
  | ValueError (BranchDTypesDiffer _ _) => true
  | _ => false
  end.

(** What [_add_argument] does to [self]. *)
Definition record_argument (arg_value : arg) (arg_name : string)
    (op : Operator) : Operator :=
  match arg_value with
  | Node node =>
      mkOperator (op_class op) (op_id op) (inputs op ++ [(arg_name, node)])
        (outputs op) (attributes op) (_on_attributes op)
  | Value value =>
      mkOperator (op_class op) (op_id op) (inputs op) (outputs op)
        (attributes op ++ [(arg_name, value)])
        (dict_set arg_name value (_on_attributes op))
  end.

(** The operator once [__init__] has read its three arguments. *)
Definition with_arguments (w : World) (input : EventSetNode)
    (on_true on_false : arg) : Operator :=
  record_argument on_false "on_false"
    (record_argument on_true "on_true"
       (mkOperator WhereClass (next_id w) [("input", input)] [] [] [])).

Definition shares_sampling (input : EventSetNode) (arg_value : arg) : Prop :=
  match arg_value with
  | Node node => sampling_node input = sampling_node node
  | Value _ => True
  end.

Section with_dtype_inference.

Variable infer_from_value : pyvalue → result DType.

(** The resulting dtype of an argument, in the words of the spec: the dtype
    of the single feature of a node, the inferred dtype of a scalar. *)
Definition resulting_dtype (arg_value : arg) : option DType :=
  match arg_value with
  | Node node =>
      match feature_dtypes (schema node) with
      | [dtype] => Some dtype
      | _ => None
      end
  | Value value =>
      match infer_from_value value with
      | Ok dtype => Some dtype
      | Raise _ => None
      end
  end.

(** The arguments [_add_argument] returns [dtype] for. *)
Definition accepts (input : EventSetNode) (arg_value : arg) (dtype : DType)
    : Prop :=
  match arg_value with
  | Node node =>
      sampling_node input = sampling_node node
      ∧ feature_dtypes (schema node) = [dtype]
  | Value value => infer_from_value value = Ok dtype
  end.

End with_dtype_inference.

End WhereSpec.

Module CastSpec.

Import CastNumpy.

Section with_numpy.

Context {ndarray : Type} `{!Numpy ndarray}.


(** The feature [__call__] creates when the dtype changes. *)
Definition converted (w : World) (feature : NumpyFeature ndarray)
    (dst_dtype : DType) : NumpyFeature ndarray :=
  mkNumpyFeature (next_id w) (name feature) (astype (data feature) dst_dtype).




(** Every index key of the event holds the features of the same schema. *)
Definition event_wf (event : NumpyEvent ndarray) : Prop :=
  Forall (λ item, (λ feature, (name feature, dtype feature)) <$> item.2
                  = dtypes event)
    (event_data event).

(** No feature of the event changes dtype. *)
Definition keeps_dtypes (operator : CastOperator)
    (event : NumpyEvent ndarray) : Prop :=
  Forall (λ item,
            Forall (λ feature, target_dtypes operator !! name feature
                               = Some (dtype feature)) item.2)
    (event_data event).

End with_numpy.

End CastSpec.

(** ** Sample data *)

(** Integer arrays: the elements are integers and numpy compares them with
    the limits exactly; [astype] to an integer type keeps the low bits. *)
Module IntArrays.

Record IntArray := mkIntArray { int_dtype : DType; int_items : list Z }.

Definition wrap (bits x : Z) : Z :=
  ((x + 2 ^ (bits - 1)) mod 2 ^ bits - 2 ^ (bits - 1))%Z.

Definition int_astype (a : IntArray) (dtype : DType) : IntArray :=
  mkIntArray dtype
    match dtype with
    | INT32 => wrap 32 <$> int_items a
    | INT64 => wrap 64 <$> int_items a
    | _ => int_items a
    end.

#[global] Instance IntArray_numpy : Numpy IntArray := {|
  scalar := Z;
  array_dtype := int_dtype;
  tolist := int_items;
  astype := int_astype;
  less := Z.ltb;
  greater := Z.gtb;
|}.

End IntArrays.

Module Samples.

Import IntArrays.

(** A dtype inference in the manner of Python's scalar types. *)
Definition infer (value : pyvalue) : result DType :=
  match value with
  | PyNone => Raise AssertionError
  | PyBool _ => Ok BOOLEAN
  | PyInt _ => Ok INT64
  | PyFloat _ => Ok FLOAT64
  | PyStr _ => Ok STRING
  end.

Definition w0 : World := mkWorld 10.

Definition node (features : list (string * DType)) (sampling : nat)
    (is_unix_timestamp : bool) : EventSetNode :=
  mkNode (mkSchema features [("store", INT64)] is_unix_timestamp) sampling None.

Definition bool_node : EventSetNode := node [("flag", BOOLEAN)] 3 true.
Definition two_bool_node : EventSetNode :=
  node [("flag", BOOLEAN); ("open", BOOLEAN)] 3 true.
Definition int_node : EventSetNode := node [("sales", INT64)] 3 true.
Definition float_node : EventSetNode := node [("price", FLOAT64)] 3 true.
Definition other_sampling_int_node : EventSetNode :=
  node [("sales", INT64)] 4 true.

(** Two nodes with the same features in a different order, and a third one
    whose features differ. *)
Definition ab_node : EventSetNode := node [("A", INT64); ("B", INT64)] 3 true.
Definition ba_node : EventSetNode := node [("B", INT64); ("A", INT64)] 5 false.


Definition where_evset : WhereNumpy.EventSet IntArray :=
  WhereNumpy.mkEventSet
    {[ [IdxInt 1] := WhereNumpy.mkIndexData
                       [mkIntArray BOOLEAN [1; 0; 1]%Z]
                       [5%float; 6%float; 7%float]
                       (schema bool_node);
       [IdxInt 2] := WhereNumpy.mkIndexData
                       [mkIntArray BOOLEAN [0]%Z]
                       [9%float]
                       (schema bool_node) ]}
    (schema bool_node).

(** An event with one [int64] feature holding 0 and 2^40, and the cast of
    that feature to [int32], with and without the overflow check. *)
Definition big_feature : CastNumpy.NumpyFeature IntArray :=
  CastNumpy.mkNumpyFeature 1 "sales" (mkIntArray INT64 [0; 2 ^ 40]%Z).

Definition small_feature : CastNumpy.NumpyFeature IntArray :=
  CastNumpy.mkNumpyFeature 2 "count" (mkIntArray INT32 [7; 8]%Z).


Definition mixed_event : CastNumpy.NumpyEvent IntArray :=
  CastNumpy.mkNumpyEvent 0 [([IdxInt 1], [small_feature; big_feature])] 3.

Definition to_int32 (check_overflow : bool) : CastNumpy.CastOperator :=
  CastNumpy.mkCastOperator {[ "sales" := INT32; "count" := INT32 ]}
    check_overflow.

(** What the cast of [mixed_event] to [int32] returns without the check,
    from the allocator [w0]: the [int32] feature is the one of the input, the
    other one is new and holds the low 32 bits. *)
Definition mixed_cast_result : CastNumpy.NumpyEvent IntArray :=
  CastNumpy.mkNumpyEvent 10
    [([IdxInt 1],
      [small_feature;
       CastNumpy.mkNumpyFeature 11 "sales" (mkIntArray INT32 [0; 0]%Z)])]
    3.

Definition to_same : CastNumpy.CastOperator :=
  CastNumpy.mkCastOperator {[ "sales" := INT64; "count" := INT32 ]} true.

End Samples.

(** ** Further notions *)

(** The [on_true] and [on_false] properties of the class [Where]:
    [self._on_attributes.get(name, None)]. *)
Module WhereProperties.

Definition on_true (op : Operator) : pyvalue :=
  default PyNone (dict_get "on_true" (_on_attributes op)).

Definition on_false (op : Operator) : pyvalue :=
  default PyNone (dict_get "on_false" (_on_attributes op)).

(** The operator that a successful [Where.__init__] leaves behind. *)
Definition finished (w : World) (input : EventSetNode)
    (on_true on_false : Where.arg) (name : string) (dtype : DType)
    : Operator :=
  let op := WhereSpec.with_arguments w input on_true on_false in
  mkOperator WhereClass (next_id w) (inputs op)
    [("output",
      create_node_new_features_existing_sampling [(name, dtype)] input op)]
    (attributes op) (_on_attributes op).

(** The scalar of an argument, [None] for a node. *)
Definition scalar_of (arg_value : Where.arg) : pyvalue :=
  match arg_value with
  | Where.Node _ => PyNone
  | Where.Value value => value
  end.

Definition node_of (arg_value : Where.arg) : option EventSetNode :=
  match arg_value with
  | Where.Node node => Some node
  | Where.Value _ => None
  end.

Definition value_of (arg_value : Where.arg) : option pyvalue :=
  match arg_value with
  | Where.Node _ => None
  | Where.Value value => Some value
  end.

End WhereProperties.

(** Inputs under the keys of the first slots of the definition of
    [Combine]: [input_0], [input_1], ... *)
Module CombineKeys.



End CombineKeys.

Module CastOrder.

Import CastNumpy.

(** The numeric dtypes by their greatest value. *)
Definition rank (dtype : DType) : option nat :=
  match dtype with
  | INT32 => Some 0
  | INT64 => Some 1
  | FLOAT32 => Some 2
  | FLOAT64 => Some 3
  | BOOLEAN | STRING => None
  end.

Definition narrows (origin_dtype dst_dtype : DType) : bool :=
  match rank origin_dtype, rank dst_dtype with
  | Some origin, Some dst => bool_decide (dst < origin)
  | _, _ => false
  end.

Section with_numpy.

Context {ndarray : Type} `{!Numpy ndarray}.

(** The features whose dtype is not their target dtype. *)
Definition changed (operator : CastOperator)
    (feature : NumpyFeature ndarray) : bool :=
  bool_decide (target_dtypes operator !! name feature
               ≠ Some (dtype feature)).

Definition changes (operator : CastOperator)
    (features : list (NumpyFeature ndarray)) : nat :=
  length (filter (λ feature, changed operator feature = true) features).

Definition event_changes (operator : CastOperator)
    (event : NumpyEvent ndarray) : nat :=
  sum_list ((λ item : IndexKey * list (NumpyFeature ndarray),
               changes operator item.2) <$> event_data event).

(** The index keys of an event with the names of their features. *)
Definition layout (event : NumpyEvent ndarray)
    : list (IndexKey * list string) :=
  (λ item : IndexKey * list (NumpyFeature ndarray),
     (item.1, name <$> item.2)) <$> event_data event.

Definition all_features (event : NumpyEvent ndarray)
    : list (NumpyFeature ndarray) :=
  mjoin ((λ item : IndexKey * list (NumpyFeature ndarray), item.2)
           <$> event_data event).

End with_numpy.

End CastOrder.

Module MoreSamples.

Import IntArrays.

Definition three_feature_node : EventSetNode :=
  Samples.node [("a", INT64); ("b", INT64); ("c", INT64)] 3 true.

Definition no_feature_node : EventSetNode := Samples.node [] 3 true.

Definition unnamed_operator : CastNumpy.CastOperator :=
  CastNumpy.mkCastOperator {[ "count" := INT32 ]} true.

Definition two_key_event : CastNumpy.NumpyEvent IntArray :=
  CastNumpy.mkNumpyEvent 0
    [([IdxInt 1], [Samples.small_feature; Samples.big_feature]);
     ([IdxInt 2],
      [CastNumpy.mkNumpyFeature 4 "count" (mkIntArray INT32 [1]%Z);
       CastNumpy.mkNumpyFeature 5 "sales" (mkIntArray INT64 [2]%Z)])]
    3.

(** An EventSet with the index keys of [Samples.where_evset] and other
    timestamps and values. *)
Definition other_where_evset : WhereNumpy.EventSet IntArray :=
  WhereNumpy.mkEventSet
    {[ [IdxInt 2] := WhereNumpy.mkIndexData
                       [mkIntArray BOOLEAN [1; 1]%Z]
                       [1%float; 2%float]
                       (schema Samples.bool_node);
       [IdxInt 1] := WhereNumpy.mkIndexData [] [] (schema Samples.bool_node) ]}
    (schema Samples.int_node).

Definition to_int64 : CastNumpy.CastOperator :=
  CastNumpy.mkCastOperator {[ "sales" := INT64; "count" := INT64 ]} true.

End MoreSamples.

(** * Properties *)

(** ** Reasoning in the monads *)

Lemma bind_Ok {S A B} (c : M S A) (f : A → M S B) s b s' :
  (c ≫= f) s = Ok (b, s') → ∃ a s1, c s = Ok (a, s1) ∧ f a s1 = Ok (b, s').
Proof.
  unfold mbind, M_bind. destruct (c s) as [[a s1]|e]; [|done].
  intros Hf. by exists a, s1.
Qed.

Lemma bind_run {S A B} (c : M S A) (f : A → M S B) s a s1 :
  c s = Ok (a, s1) → (c ≫= f) s = f a s1.
Proof. unfold mbind, M_bind. by intros ->. Qed.

Lemma bind_fail {S A B} (c : M S A) (f : A → M S B) s e :
  c s = Raise e → (c ≫= f) s = Raise e.
Proof. unfold mbind, M_bind. by intros ->. Qed.

(** ** [Combine] *)

Module CombineFacts.

Import Combine CombineSpec.

Lemma same_feature_set_spec (a b : list (string * DType)) :
  same_feature_set a b = true ↔ ∀ x, x ∈ a ↔ x ∈ b.
Proof.
  unfold same_feature_set.
  rewrite andb_true_iff, !forallb_forall.
  setoid_rewrite bool_decide_eq_true. setoid_rewrite <- list_elem_of_In.
  split.
  - intros [Hab Hba] x. split; auto.
  - intros Heq. split; intros x; apply Heq.
Qed.

Lemma same_feature_set_refl a : same_feature_set a a = true.
Proof. by apply same_feature_set_spec. Qed.

(** The loop, once the first input is known: it stops at the first input
    that is not compatible with it, and otherwise has stored every input and
    folded the unix flags. *)
Lemma for_inputs_Some items first_input all_unix_timestamp st :
  for_inputs items (Some first_input) all_unix_timestamp st =
  if forallb (compatible first_input) items then
    Ok ((Some first_input, all_unix_timestamp && forallb unix items),
        mkCstate (add_inputs items (self st)) (world st))
  else Raise SchemaMismatchError.
Proof.
  revert all_unix_timestamp st.
  induction items as [|[k input] items IH]; intros all_unix_timestamp [op w].
  - cbn. unfold add_inputs. rewrite andb_true_r, app_nil_r.
    destruct op; reflexivity.
  - cbn [for_inputs forallb]. unfold mbind at 1, M_bind, lift at 1.
    unfold check_compatible_features, compatible at 1. cbn [snd].
    destruct (same_feature_set _ _); cbn [andb]; [|done].
    unfold mbind, M_bind. cbn. rewrite IH. cbn.
    destruct (forallb _ items); [|done].
    unfold add_inputs, unix. cbn. by rewrite andb_assoc, <- app_assoc.
Qed.

Lemma for_inputs_None items st :
  for_inputs items None true st =
  match items with
  | [] => Ok ((None, true), st)
  | (_, first_input) :: _ =>
      if forallb (compatible first_input) items then
        Ok ((Some first_input, forallb unix items),
            mkCstate (add_inputs items (self st)) (world st))
      else Raise SchemaMismatchError
  end.
Proof.
  destruct items as [|[k input] items]; [done|].
  change (for_inputs ((k, input) :: items) None true)
    with (for_inputs ((k, input) :: items) (Some input) true).
  by rewrite for_inputs_Some.
Qed.

(** The whole construction, guard by guard. *)
Lemma Combine_run inputs w :
  Combine [] inputs w =
  if bool_decide (length inputs < 2) then
    Raise (ValueError AtLeastTwoArguments)
  else if bool_decide (MAX_NUM_ARGUMENTS ≤ length inputs) then
    Raise (ValueError (TooManyArguments MAX_NUM_ARGUMENTS))
  else
    match inputs with
    | [] => Raise AssertionError
    | (_, first_input) :: _ =>
        if forallb (compatible first_input) inputs then
          if OperatorBase.slots_ok (def_inputs build_op_definition) inputs.*1
          then Ok (built w first_input inputs, mkWorld (S (S (next_id w))))
          else Raise MalformedOperatorError
        else Raise SchemaMismatchError
    end.
Proof.
  unfold Combine, OperatorBase.new, __init__.
  unfold mbind at 1, M_bind at 1. cbn [OperatorBase.__init__ set_self modify].
  do 2 (case_bool_decide; [done|]).
  unfold mbind at 1, M_bind at 1. rewrite for_inputs_None.
  destruct inputs as [|[k first_input] items]; [done|].
  destruct (forallb (compatible first_input) _); [|done].
  cbn -[forallb OperatorBase.slots_ok build_op_definition].
  unfold OperatorBase.check, create_node_new_features_new_sampling, fresh,
    get, raise, mbind, M_bind, mret, M_ret.
  cbn -[forallb OperatorBase.slots_ok def_inputs].
  change (OperatorBase.slots_ok [("output", false)] ["output"]) with true.
  change (OperatorBase.slots_ok [] []) with true.
  rewrite !andb_true_r.
  by destruct (OperatorBase.slots_ok _ _).
Qed.

Lemma Combine_positional arg args inputs w :
  Combine (arg :: args) inputs w
  = Raise (TypeError (TakesPositionalArguments 1 (S (S (length args))))).
Proof. reflexivity. Qed.

Lemma Combine_Ok args inputs w op w' :
  Combine args inputs w = Ok (op, w') →
  args = [] ∧ 2 ≤ length inputs < MAX_NUM_ARGUMENTS ∧
  ∃ k first_input rest,
    inputs = (k, first_input) :: rest ∧
    forallb (compatible first_input) inputs = true ∧
    op = built w first_input inputs ∧ w' = mkWorld (S (S (next_id w))).
Proof.
  destruct args as [|arg args]; [|by rewrite Combine_positional].
  rewrite Combine_run. do 2 (case_bool_decide; [done|]).
  destruct inputs as [|[k first_input] rest]; [done|].
  destruct (forallb _ _) eqn:Hcompatible; [|done].
  destruct (OperatorBase.slots_ok _ _); [|done].
  intros [= <- <-]. split; [done|]. split; [lia|].
  by exists k, first_input, rest.
Qed.



(** C4: for every [x], [combine] called with the single argument [x] returns
    [x] itself and leaves the allocator as it was; no operator has been
    constructed, since every construction of a Combine operator that returns
    moves the allocator. *)
Theorem combine_single_argument :
  ∀ (x : EventSetNode) (w : World),
    combine [x] w = Ok (x, w)
    ∧ ∀ args inputs op, Combine args inputs w ≠ Ok (op, w).
Proof.
  intros x w. split; [done|].
  intros args inputs op Hop.
  apply Combine_Ok in Hop as (_ & _ & _ & _ & _ & _ & _ & _ & Hw).
  destruct w as [n]. injection Hw as Hn. lia.
Qed.




(** X1: what [combine] does with any other number of arguments: it passes the
    tuple of its inputs to [Combine] as one positional argument, which the
    keyword-only signature of [__init__] refuses. *)
Lemma combine_passes_tuple (inputs : list EventSetNode) (w : World) :
  length inputs ≠ 1 →
  combine inputs w = Raise (TypeError (TakesPositionalArguments 1 2)).
Proof.
  intros Hlen. unfold combine. rewrite bool_decide_eq_false_2 by done.
  apply bind_fail, Combine_positional.
Qed.

(** C6: when the construction of a Combine operator returns, the
    [is_unix_timestamp] flag of its output node is true exactly when the flag
    of every input is true, and it is false as soon as the flag of one input
    is false. *)
Theorem Combine_is_unix_timestamp :
  ∀ (args : list argument) (inputs : list (string * EventSetNode))
    (w w' : World) (op : Operator),
    Combine args inputs w = Ok (op, w') →
    ∃ output,
      outputs op = [("output", output)]
      ∧ (is_unix_timestamp (schema output) = true
         ↔ ∀ item, item ∈ inputs → is_unix_timestamp (schema item.2) = true)
      ∧ (∀ item, item ∈ inputs →
           is_unix_timestamp (schema item.2) = false →
           is_unix_timestamp (schema output) = false).
Proof.
  intros args inputs w w' op Hop.
  apply Combine_Ok in Hop as (_ & _ & k & first_input & rest & _ & _ & -> & _).
  eexists. split; [done|]. cbn [output_node schema is_unix_timestamp].
  assert (Hall : forallb unix inputs = true
                 ↔ ∀ item, item ∈ inputs → is_unix_timestamp (schema item.2) = true).
  { rewrite forallb_forall. by setoid_rewrite list_elem_of_In. }
  split; [done|].
  intros item Hitem Hfalse. apply not_true_iff_false. intros Htrue.
  pose proof (proj1 Hall Htrue item Hitem). congruence.
Qed.

Lemma Combine_is_unix_timestamp_witness :
  ∃ output,
    outputs (built Samples.w0 Samples.ab_node
               [("input_0", Samples.ab_node); ("input_1", Samples.ba_node)])
    = [("output", output)]
    ∧ (is_unix_timestamp (schema output) = true
       ↔ ∀ item, item ∈ [("input_0", Samples.ab_node);
                          ("input_1", Samples.ba_node)] →
                 is_unix_timestamp (schema item.2) = true)
    ∧ (∀ item, item ∈ [("input_0", Samples.ab_node);
                       ("input_1", Samples.ba_node)] →
         is_unix_timestamp (schema item.2) = false →
         is_unix_timestamp (schema output) = false).
Proof.
  apply (Combine_is_unix_timestamp []
           [("input_0", Samples.ab_node); ("input_1", Samples.ba_node)]
           Samples.w0 (mkWorld 12)).
  vm_compute. reflexivity.
Defined.

End CombineFacts.

(** ** [Where] *)

Module WhereFacts.

Import Where WhereSpec.

Section facts.

Variable infer_from_value : pyvalue → result DType.

Lemma add_argument_Ok arg_value arg_name input st dtype st' :
  _add_argument infer_from_value arg_value arg_name input st = Ok (dtype, st')
  ↔ accepts infer_from_value input arg_value dtype
    ∧ st' = mkCstate (record_argument arg_value arg_name (self st)) (world st).
Proof.
  destruct st as [op w]. destruct arg_value as [node|value]; cbn.
  - unfold check_same_sampling, mbind, M_bind, lift.
    destruct (decide (sampling_node input = sampling_node node)) as [Hs|Hs];
      cbn.
    2: { split; [done | by intros [[? _] _]]. }
    destruct (feature_dtypes (schema node)) as [|d [|d' ds]] eqn:Hd; cbn.
    + split; [done | by intros [[_ ?] _]].
    + split.
      * by intros [= -> <-].
      * by intros [[_ [= ->]] ->].
    + split; [done | by intros [[_ ?] _]].
  - unfold mbind, M_bind, lift.
    destruct (infer_from_value value) as [d|e]; cbn.
    + split.
      * by intros [= -> <-].
      * by intros [[= ->] ->].
    + split; [done | by intros [? _]].
Qed.

Lemma accepts_resulting_dtype input arg_value dtype :
  accepts infer_from_value input arg_value dtype
  ↔ shares_sampling input arg_value
    ∧ resulting_dtype infer_from_value arg_value = Some dtype.
Proof.
  destruct arg_value as [node|value]; cbn.
  - destruct (feature_dtypes (schema node)) as [|d [|d' ds]];
      split; intros [? ?]; split; congruence.
  - destruct (infer_from_value value);
      (split; [intros [= ->]|intros [_ [= ->]]]); done.
Qed.

(** The check of the input, as one comparison. *)
Lemma input_check (dtypes : list DType) :
  bool_decide (length dtypes ≠ 1) || bool_decide (dtypes !! 0 ≠ Some BOOLEAN)
  = bool_decide (dtypes ≠ [BOOLEAN]).
Proof.
  destruct dtypes as [|d [|d' ds]]; cbn;
    repeat case_bool_decide; cbn in *; try done; congruence.
Qed.

Lemma with_arguments_input w input on_true on_false :
  dict_get "input" (inputs (with_arguments w input on_true on_false))
  = Some input
  ∧ outputs (with_arguments w input on_true on_false) = [].
Proof. by destruct on_true, on_false. Qed.

(** The steps of [__init__] up to the comparison of the two dtypes. *)
Lemma init_prefix input on_true on_false w true_dtype false_dtype
    (rest : DType → DType → M cstate unit) :
  feature_dtypes (schema input) = [BOOLEAN] →
  accepts infer_from_value input on_true true_dtype →
  accepts infer_from_value input on_false false_dtype →
  (true_dtype ← _add_argument infer_from_value on_true "on_true" input;
   false_dtype ← _add_argument infer_from_value on_false "on_false" input;
   rest true_dtype false_dtype)
    (mkCstate (mkOperator WhereClass (next_id w) [("input", input)] [] [] [])
       (mkWorld (S (next_id w))))
  = rest true_dtype false_dtype
      (mkCstate (with_arguments w input on_true on_false)
         (mkWorld (S (next_id w)))).
Proof.
  intros Hin Htrue Hfalse.
  erewrite bind_run; [|by apply add_argument_Ok].
  erewrite bind_run; [|by apply add_argument_Ok].
  reflexivity.
Qed.

Lemma Where_input_rejected input on_true on_false w :
  feature_dtypes (schema input) ≠ [BOOLEAN] →
  Where.Where infer_from_value input on_true on_false w
  = Raise (ValueError (InputNotOneBoolean (feature_dtypes (schema input)))).
Proof.
  intros Hin. unfold Where.Where, OperatorBase.new, __init__.
  unfold mbind at 1. unfold M_bind. cbn.
  rewrite input_check, bool_decide_eq_true_2 by done. done.
Qed.

Lemma Where_branches_differ input on_true on_false w true_dtype false_dtype :
  feature_dtypes (schema input) = [BOOLEAN] →
  accepts infer_from_value input on_true true_dtype →
  accepts infer_from_value input on_false false_dtype →
  true_dtype ≠ false_dtype →
  Where.Where infer_from_value input on_true on_false w
  = Raise (ValueError (BranchDTypesDiffer true_dtype false_dtype)).
Proof.
  intros Hin Htrue Hfalse Hne. unfold Where.Where, OperatorBase.new, __init__.
  unfold mbind at 1, M_bind at 1. cbn [OperatorBase.__init__ set_self modify].
  rewrite input_check, bool_decide_eq_false_2 by (by intros []).
  unfold mbind at 1, M_bind at 1.
  cbn [OperatorBase.add_input set_self modify self world op_class op_id
         inputs outputs attributes _on_attributes app].
  unfold mbind at 1, M_bind at 1.
  cbn [set_self modify self world op_class op_id inputs outputs attributes].
  erewrite init_prefix by done.
  by rewrite bool_decide_eq_true_2.
Qed.

Lemma Where_Ok input on_true on_false w op w' :
  Where.Where infer_from_value input on_true on_false w = Ok (op, w') →
  ∃ name dtype,
    features (schema input) = [(name, BOOLEAN)] ∧
    accepts infer_from_value input on_true dtype ∧
    accepts infer_from_value input on_false dtype ∧
    op_class op = WhereClass ∧
    outputs op =
      [("output", create_node_new_features_existing_sampling
                    [(name, dtype)] input
                    (with_arguments w input on_true on_false))].
Proof.
  unfold Where.Where, OperatorBase.new.
  destruct (__init__ _ _ _ _ _) as [[[] st]|e] eqn:Hinit; [|done].
  intros [= <- <-]. unfold __init__ in Hinit.
  apply bind_Ok in Hinit as ([] & st0 & [= <-] & Hinit).
  rewrite input_check in Hinit. case_bool_decide as Hin; [done|].
  apply bind_Ok in Hinit as ([] & st1 & [= <-] & Hinit).
  apply bind_Ok in Hinit as ([] & st2 & [= <-] & Hinit).
  apply bind_Ok in Hinit as (true_dtype & st3 & Htrue & Hinit).
  apply bind_Ok in Hinit as (false_dtype & st4 & Hfalse & Hinit).
  apply add_argument_Ok in Htrue as [Htrue ->].
  apply add_argument_Ok in Hfalse as [Hfalse ->].
  case_bool_decide as Hsame; [done|]. subst true_dtype.
  apply bind_Ok in Hinit as (name & st5 & Hname & Hinit).
  apply bind_Ok in Hinit as (st6 & ? & [= <- <-] & Hinit).
  apply bind_Ok in Hinit as ([] & st7 & [= <-] & Hinit).
  unfold OperatorBase.check in Hinit.
  apply bind_Ok in Hinit as (? & ? & [= <- <-] & Hinit).
  case_match; [|done]. injection Hinit as <-.
  unfold output_feature_name in Hname.
  apply bind_Ok in Hname as (? & ? & [= <- <-] & Hname).
  apply bind_Ok in Hname as (input' & ? & Hinput & Hname).
  cbn in Hinput.
  pose proof (with_arguments_input w input on_true on_false) as [Hget Hout].
  unfold with_arguments in Hget, Hout. cbn in Hget, Hout.
  unfold dict_item in Hinput. rewrite Hget in Hinput.
  injection Hinput as <- <-.
  unfold feature_names, feature_dtypes in *.
  destruct (features (schema input)) as [|[n d] [|? ?]] eqn:Hf; try done.
  cbn in Hin, Hname. injection Hin as ->. injection Hname as <- <-.
  exists n, false_dtype. cbn. rewrite Hout.
  repeat split; try done.
  by destruct on_true, on_false.
Qed.

End facts.

(** C7: constructing a Where operator raises the dtype-constraint error (the
    [ValueError] "Input should have only 1 boolean feature ...") whenever the
    dtypes of the features of the input node are not exactly one BOOLEAN,
    whatever [on_true] and [on_false] are; so with two boolean features, and
    with one feature that is not boolean. *)
Theorem Where_input_not_one_boolean :
  ∀ (infer_from_value : pyvalue → result DType) (input : EventSetNode)
    (on_true on_false : arg) (w : World),
    feature_dtypes (schema input) ≠ [BOOLEAN] →
    Where.Where infer_from_value input on_true on_false w
    = Raise (ValueError (InputNotOneBoolean (feature_dtypes (schema input))))
    ∧ DTypeConstraintError
        (ValueError (InputNotOneBoolean (feature_dtypes (schema input))))
      = true.
Proof.
  intros infer_from_value input on_true on_false w Hin.
  split; [by apply Where_input_rejected | done].
Qed.

Lemma Where_input_not_one_boolean_witness :
  (Where.Where Samples.infer Samples.two_bool_node (Value (PyInt 1))
     (Value (PyInt 0)) Samples.w0
   = Raise (ValueError (InputNotOneBoolean [BOOLEAN; BOOLEAN]))
   ∧ DTypeConstraintError (ValueError (InputNotOneBoolean [BOOLEAN; BOOLEAN]))
     = true)
  ∧ (Where.Where Samples.infer Samples.int_node (Value (PyInt 1))
       (Value (PyInt 0)) Samples.w0
     = Raise (ValueError (InputNotOneBoolean [INT64]))
     ∧ DTypeConstraintError (ValueError (InputNotOneBoolean [INT64])) = true).
Proof.
  split.
  - apply (Where_input_not_one_boolean Samples.infer Samples.two_bool_node).
    cbn. discriminate.
  - apply (Where_input_not_one_boolean Samples.infer Samples.int_node).
    cbn. discriminate.
Defined.

(** C8, as the code has it: when every node among [on_true] and [on_false]
    shares the sampling of the input and the resulting dtypes of the two
    arguments differ, constructing a Where operator raises a dtype-constraint
    error, which is the [ValueError] "Arguments 'on_true' ... and 'on_false'
    ... should have the same dtype" when the input is one boolean feature;
    nothing is coerced. When the construction returns, the two resulting
    dtypes are equal, and the output node has exactly one feature, of that
    dtype, and the sampling of the input node. *)
Theorem Where_branch_dtypes :
  ∀ (infer_from_value : pyvalue → result DType) (input : EventSetNode)
    (on_true on_false : arg) (w : World),
    (∀ true_dtype false_dtype,
       shares_sampling input on_true →
       shares_sampling input on_false →
       resulting_dtype infer_from_value on_true = Some true_dtype →
       resulting_dtype infer_from_value on_false = Some false_dtype →
       true_dtype ≠ false_dtype →
       ∃ e,
         Where.Where infer_from_value input on_true on_false w = Raise e
         ∧ DTypeConstraintError e = true
         ∧ (feature_dtypes (schema input) = [BOOLEAN] →
            e = ValueError (BranchDTypesDiffer true_dtype false_dtype)))
    ∧ (∀ op w',
         Where.Where infer_from_value input on_true on_false w = Ok (op, w') →
         ∃ output name dtype,
           outputs op = [("output", output)]
           ∧ features (schema output) = [(name, dtype)]
           ∧ resulting_dtype infer_from_value on_true = Some dtype
           ∧ resulting_dtype infer_from_value on_false = Some dtype
           ∧ sampling_node output = sampling_node input).
Proof.
  intros infer_from_value input on_true on_false w. split.
  - intros true_dtype false_dtype Hs1 Hs2 Ht Hf Hne.
    destruct (decide (feature_dtypes (schema input) = [BOOLEAN])) as [Hin|Hin].
    + eexists. split; [|split; [|done]].
      * apply Where_branches_differ; try done;
          by apply accepts_resulting_dtype.
      * done.
    + eexists. split; [by apply Where_input_rejected|]. split; [done|].
      by intros ?.
  - intros op w' Hop.
    apply Where_Ok in Hop as (name & dtype & _ & Ht & Hf & _ & Hout).
    apply accepts_resulting_dtype in Ht as [_ Ht].
    apply accepts_resulting_dtype in Hf as [_ Hf].
    by eexists _, name, dtype.
Qed.

Lemma Where_branch_dtypes_witness :
  (∃ e,
     Where.Where Samples.infer Samples.bool_node (Node Samples.int_node)
       (Value (PyFloat 0)) Samples.w0 = Raise e
     ∧ DTypeConstraintError e = true
     ∧ (feature_dtypes (schema Samples.bool_node) = [BOOLEAN] →
        e = ValueError (BranchDTypesDiffer INT64 FLOAT64)))
  ∧ (∃ output name dtype,
       outputs (mkOperator WhereClass 10
                  [("input", Samples.bool_node);
                   ("on_true", Samples.int_node)]
                  [("output",
                    mkNode (mkSchema [("flag", INT64)] [("store", INT64)] true)
                      3 (Some 10))]
                  [("on_false", PyInt 0)] [("on_false", PyInt 0)])
       = [("output", output)]
       ∧ features (schema output) = [(name, dtype)]
       ∧ resulting_dtype Samples.infer (Node Samples.int_node) = Some dtype
       ∧ resulting_dtype Samples.infer (Value (PyInt 0)) = Some dtype
       ∧ sampling_node output = sampling_node Samples.bool_node).
Proof.
  split.
  - apply (proj1 (Where_branch_dtypes Samples.infer Samples.bool_node
                    (Node Samples.int_node) (Value (PyFloat 0)) Samples.w0)
             INT64 FLOAT64); try reflexivity. discriminate.
  - apply (proj2 (Where_branch_dtypes Samples.infer Samples.bool_node
                    (Node Samples.int_node) (Value (PyInt 0)) Samples.w0)
             _ (mkWorld 11)).
    vm_compute. reflexivity.
Defined.

(** C8, as the claim states it, fails: when [on_true] is a node that does
    not share the sampling of the input, the construction stops in
    [check_same_sampling], with the sampling-mismatch error, although the
    resulting dtypes of the two arguments, INT64 and FLOAT64, differ. *)
Lemma Where_other_sampling_not_dtype_error :
  resulting_dtype Samples.infer (Node Samples.other_sampling_int_node)
  = Some INT64
  ∧ resulting_dtype Samples.infer (Value (PyFloat 0)) = Some FLOAT64
  ∧ Where.Where Samples.infer Samples.bool_node
      (Node Samples.other_sampling_int_node) (Value (PyFloat 0)) Samples.w0
    = Raise SamplingMismatchError
  ∧ DTypeConstraintError SamplingMismatchError = false.
Proof. repeat split; reflexivity. Qed.

End WhereFacts.

(** ** The numpy implementation of [Where] *)

Module WhereNumpyFacts.

Import WhereNumpy.

(** The loop of [__call__] stores the same block under every index key of
    the input. *)
Lemma fill_placeholder {ndarray : Type} (block : IndexData ndarray)
    (sch : Schema) (input : gmap IndexKey (IndexData ndarray)) :
  data (map_fold (λ index_key _ output_evset,
                    set_index_value index_key block output_evset)
          (mkEventSet ∅ sch) input)
  = (λ _, block) <$> input
  ∧ evset_schema (map_fold (λ index_key _ output_evset,
                    set_index_value index_key block output_evset)
          (mkEventSet ∅ sch) input) = sch.
Proof.
  apply (map_fold_weak_ind
           (λ r m, data r = (λ _, block) <$> m ∧ evset_schema r = sch)).
  - by rewrite fmap_empty.
  - intros index_key x m r Hfresh [Hdata Hsch]. split; [|done].
    cbn. by rewrite Hdata, fmap_insert.
Qed.

(** C1: for every Where operator that was constructed and every input
    EventSet, [__call__] returns, under ["output"], an EventSet that holds,
    for each index key of the input and for no other, an IndexData with no
    feature and the timestamps [1.0]; it reads neither the timestamps nor
    the features of the input, nor [on_true] and [on_false]. *)
Theorem Where_call_placeholder :
  ∀ (ndarray : Type) (infer_from_value : pyvalue → result DType)
    (input_node : EventSetNode) (on_true on_false : Where.arg) (w w' : World)
    (operator : Operator) (input : EventSet ndarray),
    Where.Where infer_from_value input_node on_true on_false w
    = Ok (operator, w') →
    ∃ sch output_evset,
      output_schema operator "output" = Ok sch
      ∧ __call__ operator input = Ok {[ "output" := output_evset ]}
      ∧ evset_schema output_evset = sch
      ∧ data output_evset
        = (λ _, mkIndexData [] [1%float] sch) <$> data input
      ∧ ∀ index_key,
          data output_evset !! index_key
          = if data input !! index_key is Some _
            then Some (mkIndexData [] [1%float] sch)
            else None.
Proof.
  intros ndarray infer_from_value input_node on_true on_false w w' operator
    input Hop.
  apply WhereFacts.Where_Ok in Hop as (name & dtype & _ & _ & _ & Hcls & Hout).
  unfold __call__, output_schema. rewrite Hout, Hcls. cbn.
  eexists _, _. split; [done|]. split; [done|].
  match goal with
  | |- context [map_fold ?f (mkEventSet ∅ ?sch) _] =>
      destruct (fill_placeholder (mkIndexData [] [1%float] sch) sch
                  (data input)) as [Hdata Hsch]
  end.
  split; [done|]. split; [done|].
  intros index_key. rewrite Hdata, lookup_fmap.
  by destruct (data input !! index_key).
Qed.

Lemma Where_call_placeholder_witness :
  ∃ sch output_evset,
    output_schema
      (mkOperator WhereClass 10
         [("input", Samples.bool_node); ("on_true", Samples.int_node)]
         [("output",
           mkNode (mkSchema [("flag", INT64)] [("store", INT64)] true)
             3 (Some 10))]
         [("on_false", PyInt 0)] [("on_false", PyInt 0)]) "output"
    = Ok sch
    ∧ __call__
        (mkOperator WhereClass 10
           [("input", Samples.bool_node); ("on_true", Samples.int_node)]
           [("output",
             mkNode (mkSchema [("flag", INT64)] [("store", INT64)] true)
               3 (Some 10))]
           [("on_false", PyInt 0)] [("on_false", PyInt 0)])
        Samples.where_evset
      = Ok {[ "output" := output_evset ]}
    ∧ evset_schema output_evset = sch
    ∧ data output_evset
      = (λ _, mkIndexData [] [1%float] sch)
          <$> data Samples.where_evset
    ∧ ∀ index_key,
        data output_evset !! index_key
        = if data Samples.where_evset !! index_key is Some _
          then Some (mkIndexData [] [1%float] sch)
          else None.
Proof.
  apply (Where_call_placeholder _ Samples.infer Samples.bool_node
           (Where.Node Samples.int_node) (Where.Value (PyInt 0)) Samples.w0
           (mkWorld 11)).
  vm_compute. reflexivity.
Defined.

End WhereNumpyFacts.

(** ** The numpy implementation of [Cast] *)

Module CastNumpyFacts.

Import CastNumpy CastSpec.

Section facts.

Context {ndarray : Type} `{!Numpy ndarray}.

Implicit Types (operator : CastOperator) (feature : NumpyFeature ndarray)
  (event : NumpyEvent ndarray) (w : World).




Lemma cast_feature_unchanged operator feature w :
  target_dtypes operator !! name feature = Some (dtype feature) →
  cast_feature operator feature w = Ok (feature, w).
Proof.
  intros Ht. unfold cast_feature, target_dtype. rewrite Ht.
  unfold mbind at 1, M_bind at 1, lift at 1. by rewrite decide_True.
Qed.

Lemma cast_feature_changed operator feature dst_dtype w :
  target_dtypes operator !! name feature = Some dst_dtype →
  dtype feature ≠ dst_dtype →
  cast_feature operator feature w =
  match
    (if check_overflow operator
     then _check_overflow (data feature) (dtype feature) dst_dtype
     else Ok tt)
  with
  | Ok _ => Ok (converted w feature dst_dtype, mkWorld (S (next_id w)))
  | Raise e => Raise e
  end.
Proof.
  intros Ht Hne. unfold cast_feature, target_dtype. rewrite Ht.
  unfold mbind at 1, M_bind at 1, lift at 1. rewrite decide_False by done.
  unfold mbind at 1, M_bind at 1.
  destruct (check_overflow operator); [|done].
  unfold lift. by destruct (_check_overflow _ _ _).
Qed.



Lemma mapM_cons {A B} (f : A → M World B) x l w :
  mapM f (x :: l) w =
  match f x w with
  | Ok (y, w1) =>
      match mapM f l w1 with
      | Ok (k, w2) => Ok (y :: k, w2)
      | Raise e => Raise e
      end
  | Raise e => Raise e
  end.
Proof.
  cbn [mapM]. unfold mbind, M_bind. destruct (f x w) as [[y w1]|e]; [|done].
  by destruct (mapM f l w1) as [[k w2]|e].
Qed.



(** A feature that keeps its dtype is, in the output list, the feature of
    the input list at the same position. *)
Lemma cast_features_reuse operator features w features' w' :
  mapM (cast_feature operator) features w = Ok (features', w') →
  length features' = length features
  ∧ ∀ j feature,
      features !! j = Some feature →
      target_dtypes operator !! name feature = Some (dtype feature) →
      features' !! j = Some feature.
Proof.
  revert w features'.
  induction features as [|f features IH]; intros w features'.
  { intros [= <- <-]. split; [done|]. by intros j feature [=]. }
  rewrite mapM_cons.
  destruct (cast_feature operator f w) as [[f' w1]|e] eqn:Hf; [|done].
  destruct (mapM (cast_feature operator) features w1)
    as [[fs' w2]|e] eqn:Hfs; [|done].
  intros [= <- <-]. apply IH in Hfs as [Hlen Hreuse].
  split; [by cbn; rewrite Hlen|].
  intros [|j] feature Hj Ht; cbn in *.
  - injection Hj as ->.
    rewrite cast_feature_unchanged in Hf by done. by injection Hf as <- _.
  - by apply Hreuse.
Qed.

Lemma cast_index_run operator (item : IndexKey * list (NumpyFeature ndarray)) w :
  cast_index operator item w =
  match mapM (cast_feature operator) item.2 w with
  | Ok (features', w') => Ok ((item.1, features'), w')
  | Raise e => Raise e
  end.
Proof.
  unfold cast_index, mbind, M_bind.
  by destruct (mapM (cast_feature operator) item.2 w) as [[features' w']|e].
Qed.



Lemma cast_indexes_reuse operator
    (items items' : list (IndexKey * list (NumpyFeature ndarray))) w w' :
  mapM (cast_index operator) items w = Ok (items', w') →
  ∀ i index_key features,
    items !! i = Some (index_key, features) →
    ∃ features' w1 w2,
      items' !! i = Some (index_key, features')
      ∧ mapM (cast_feature operator) features w1 = Ok (features', w2).
Proof.
  revert w items'.
  induction items as [|item items IH]; intros w items'.
  { by intros _ i index_key features [=]. }
  rewrite mapM_cons, cast_index_run.
  destruct (mapM (cast_feature operator) item.2 w)
    as [[fs' w1]|e] eqn:Hitem; [|done].
  destruct (mapM (cast_index operator) items w1)
    as [[is' w2]|e] eqn:Hitems; [|done].
  intros [= <- <-] [|i] index_key features Hi; cbn in *.
  - injection Hi as ->. by eexists fs', w, w1.
  - by eapply IH.
Qed.

(** The [all(...)] of [__call__]. *)
Lemma all_unchanged_true operator (items : list (string * DType)) :
  (∀ item, item ∈ items → target_dtypes operator !! item.1 = Some item.2) →
  all_unchanged operator items = Ok true.
Proof.
  induction items as [|[n d] items IH]; intros Hitems; [done|].
  pose proof (Hitems (n, d) ltac:(by left)) as Hdst. cbn in Hdst.
  cbn. unfold target_dtype. rewrite Hdst. cbn.
  rewrite decide_True by done. apply IH. intros item Hin.
  apply Hitems. by right.
Qed.


Lemma dtypes_first event item feature :
  event_data event !! 0 = Some item → feature ∈ item.2 →
  (name feature, dtype feature) ∈ dtypes event.
Proof.
  unfold dtypes. destruct (event_data event) as [|[k fs] items]; [done|].
  intros [= <-] Hin. cbn in *.
  by apply (list_elem_of_fmap_2 (λ f, (name f, dtype f))).
Qed.


Lemma call_run operator event w :
  __call__ operator event w =
  match all_unchanged operator (dtypes event) with
  | Ok true => Ok ({[ "event" := event ]}, w)
  | Ok false =>
      match mapM (cast_index operator) (event_data event)
              (mkWorld (S (next_id w))) with
      | Ok (output_data, w') =>
          Ok ({[ "event" := mkNumpyEvent (next_id w) output_data
                               (sampling event) ]}, w')
      | Raise e => Raise e
      end
  | Raise e => Raise e
  end.
Proof.
  unfold __call__. unfold mbind at 1, M_bind at 1, lift.
  by destruct (all_unchanged operator (dtypes event)) as [[]|e].
Qed.

End facts.



(** C9: a feature whose target dtype is its own dtype is, in the event the
    cast returns, the very feature object of the input, at the same place
    under the same index key; and when no feature of the event changes
    dtype, the cast returns the input event itself and allocates nothing. *)
Theorem Cast_reuse :
  ∀ (ndarray : Type) (numpy : Numpy ndarray) (operator : CastOperator)
    (event : NumpyEvent ndarray) (w : World),
    (keeps_dtypes operator event →
     __call__ operator event w = Ok ({[ "event" := event ]}, w))
    ∧ (∀ output w',
         __call__ operator event w = Ok (output, w') →
         ∃ event',
           output = {[ "event" := event' ]}
           ∧ ∀ i index_key features j feature,
               event_data event !! i = Some (index_key, features) →
               features !! j = Some feature →
               target_dtypes operator !! name feature
               = Some (dtype feature) →
               ∃ features',
                 event_data event' !! i = Some (index_key, features')
                 ∧ features' !! j = Some feature).
Proof.
  intros ndarray numpy operator event w. split.
  - intros Hkeep. rewrite call_run, all_unchanged_true; [done|].
    intros [n d] Hin. unfold keeps_dtypes in Hkeep. unfold dtypes in Hin.
    destruct (event_data event) as [|[k fs] items]; [by inversion Hin|].
    apply Forall_cons in Hkeep as [Hfs _]. rewrite Forall_forall in Hfs.
    apply list_elem_of_fmap in Hin as (f & [= -> ->] & Hf). by apply Hfs.
  - intros output w'. rewrite call_run.
    destruct (all_unchanged operator (dtypes event)) as [[]|e]; [| |done].
    + intros [= <- <-]. exists event. split; [done|].
      intros i index_key features j feature Hi Hj _. by exists features.
    + destruct (mapM (cast_index operator) (event_data event) _)
        as [[items' w1]|e] eqn:Hitems; [|done].
      intros [= <- <-]. eexists. split; [done|].
      intros i index_key features j feature Hi Hj Hdst. cbn.
      destruct (cast_indexes_reuse _ _ _ _ _ Hitems i index_key features Hi)
        as (features' & w2 & w3 & Hi' & Hfeatures).
      exists features'. split; [done|].
      by apply (cast_features_reuse _ _ _ _ _ Hfeatures).
Qed.

Lemma Cast_reuse_witness :
  __call__ Samples.to_same Samples.mixed_event Samples.w0
  = Ok ({[ "event" := Samples.mixed_event ]}, Samples.w0)
  ∧ ∃ event',
      {[ "event" := Samples.mixed_cast_result ]}
      =@{gmap string (NumpyEvent IntArrays.IntArray)} {[ "event" := event' ]}
      ∧ ∀ i index_key features j feature,
          event_data Samples.mixed_event !! i = Some (index_key, features) →
          features !! j = Some feature →
          target_dtypes (Samples.to_int32 false) !! name feature
          = Some (dtype feature) →
          ∃ features',
            event_data event' !! i = Some (index_key, features')
            ∧ features' !! j = Some feature.
Proof.
  split.
  - apply (proj1 (Cast_reuse _ _ Samples.to_same Samples.mixed_event
                    Samples.w0)).
    by repeat constructor.
  - apply (proj2 (Cast_reuse _ _ (Samples.to_int32 false) Samples.mixed_event
                    Samples.w0) _ (mkWorld 12)).
    vm_compute. reflexivity.
Defined.

End CastNumpyFacts.

(** * Further properties *)

(** ** [Combine] *)

Module CombineMore.

Import Combine CombineSpec CombineKeys CombineFacts.

Lemma combine_passes_tuple_witness :
  combine [] Samples.w0 = Raise (TypeError (TakesPositionalArguments 1 2))
  ∧ combine [Samples.ab_node; Samples.ba_node] Samples.w0
    = Raise (TypeError (TakesPositionalArguments 1 2)).
Proof.
  split.
  - apply (combine_passes_tuple [] Samples.w0). cbn. lia.
  - apply (combine_passes_tuple [Samples.ab_node; Samples.ba_node] Samples.w0).
    cbn. lia.
Defined.








Lemma forallb_false {A} (f : A → bool) (l : list A) :
  forallb f l = false → ∃ x, x ∈ l ∧ f x = false.
Proof.
  induction l as [|x l IH]; [done|]. cbn.
  destruct (f x) eqn:Hx; cbn.
  - intros Hl. destruct (IH Hl) as (y & Hy & Hfy). exists y.
    split; [by right|done].
  - intros _. exists x. split; [by left|done].
Qed.

(** X3: a construction of a Combine operator from keyword inputs raises
    nothing but the two argument-count errors, the schema mismatch and the
    error of [check], each guard running only on inputs that passed the
    guards before it; the [assert first_input is not None] never fails. *)
Theorem Combine_errors :
  ∀ (inputs : list (string * EventSetNode)) (w : World) (e : exception),
    Combine [] inputs w = Raise e →
    (e = ValueError AtLeastTwoArguments ∧ length inputs < 2)
    ∨ (e = ValueError (TooManyArguments MAX_NUM_ARGUMENTS)
       ∧ MAX_NUM_ARGUMENTS ≤ length inputs)
    ∨ (e = SchemaMismatchError
       ∧ 2 ≤ length inputs < MAX_NUM_ARGUMENTS
       ∧ ∃ first_input item,
           head inputs.*2 = Some first_input ∧ item ∈ inputs
           ∧ compatible first_input item = false)
    ∨ (e = MalformedOperatorError
       ∧ 2 ≤ length inputs < MAX_NUM_ARGUMENTS
       ∧ (∀ first_input item,
            head inputs.*2 = Some first_input → item ∈ inputs →
            compatible first_input item = true)
       ∧ OperatorBase.slots_ok (def_inputs build_op_definition) inputs.*1
         = false).
Proof.
  intros inputs w e. rewrite Combine_run.
  case_bool_decide as Hfew; [intros [= <-]; by left|].
  case_bool_decide as Hmany; [intros [= <-]; right; by left|].
  destruct inputs as [|[k first_input] rest] eqn:Hinputs;
    [cbn in Hfew; lia|].
  rewrite <- Hinputs in *.
  assert (Hhead : head inputs.*2 = Some first_input) by by rewrite Hinputs.
  destruct (forallb _ _) eqn:Hcompatible.
  - destruct (OperatorBase.slots_ok _ _) eqn:Hslots; [done|].
    intros [= <-]. do 3 right. split; [done|]. split; [lia|]. split; [|done].
    intros first' item Hfirst Hitem. rewrite Hhead in Hfirst.
    injection Hfirst as <-. rewrite forallb_forall in Hcompatible.
    by apply Hcompatible, list_elem_of_In.
  - intros [= <-]. do 2 right. left. split; [done|]. split; [lia|].
    apply forallb_false in Hcompatible as (item & Hitem & Hfalse).
    by exists first_input, item.
Qed.

Lemma Combine_errors_witness :
  (ValueError AtLeastTwoArguments = ValueError AtLeastTwoArguments
   ∧ length [("input_0", Samples.ab_node)] < 2)
  ∨ (ValueError AtLeastTwoArguments
     = ValueError (TooManyArguments MAX_NUM_ARGUMENTS)
     ∧ MAX_NUM_ARGUMENTS ≤ length [("input_0", Samples.ab_node)])
  ∨ (ValueError AtLeastTwoArguments = SchemaMismatchError
     ∧ 2 ≤ length [("input_0", Samples.ab_node)] < MAX_NUM_ARGUMENTS
     ∧ ∃ first_input item,
         head [("input_0", Samples.ab_node)].*2 = Some first_input
         ∧ item ∈ [("input_0", Samples.ab_node)]
         ∧ compatible first_input item = false)
  ∨ (ValueError AtLeastTwoArguments = MalformedOperatorError
     ∧ 2 ≤ length [("input_0", Samples.ab_node)] < MAX_NUM_ARGUMENTS
     ∧ (∀ first_input item,
          head [("input_0", Samples.ab_node)].*2 = Some first_input →
          item ∈ [("input_0", Samples.ab_node)] →
          compatible first_input item = true)
     ∧ OperatorBase.slots_ok (def_inputs build_op_definition)
         [("input_0", Samples.ab_node)].*1 = false).
Proof.
  apply (Combine_errors [("input_0", Samples.ab_node)] Samples.w0).
  reflexivity.
Defined.

End CombineMore.

(** ** [Where] *)

Module WhereMore.

Import Where WhereSpec WhereProperties WhereFacts.

Section facts.

Variable infer_from_value : pyvalue → result DType.

Lemma check_passes w input on_true on_false output :
  let op := with_arguments w input on_true on_false in
  OperatorBase.check build_op_definition
    (mkCstate (mkOperator WhereClass (next_id w) (inputs op)
                 [("output", output)] (attributes op) (_on_attributes op))
       (mkWorld (S (next_id w))))
  = Ok (tt, mkCstate (mkOperator WhereClass (next_id w) (inputs op)
                        [("output", output)] (attributes op)
                        (_on_attributes op))
              (mkWorld (S (next_id w)))).
Proof. by destruct on_true, on_false. Qed.

Lemma output_feature_name_run st input name dtype rest :
  dict_get "input" (inputs (self st)) = Some input →
  features (schema input) = (name, dtype) :: rest →
  output_feature_name st = Ok (name, st).
Proof.
  intros Hget Hfeatures.
  unfold output_feature_name, mbind, M_bind, get, dict_item.
  rewrite Hget. unfold mret, M_ret, feature_names. by rewrite Hfeatures.
Qed.

(** The construction, run forward on arguments that pass every check. *)
Lemma Where_run input on_true on_false w name dtype :
  features (schema input) = [(name, BOOLEAN)] →
  accepts infer_from_value input on_true dtype →
  accepts infer_from_value input on_false dtype →
  Where.Where infer_from_value input on_true on_false w
  = Ok (finished w input on_true on_false name dtype,
        mkWorld (S (next_id w))).
Proof.
  intros Hfeatures Htrue Hfalse.
  assert (Hin : feature_dtypes (schema input) = [BOOLEAN])
    by (unfold feature_dtypes; by rewrite Hfeatures).
  unfold Where.Where, OperatorBase.new, __init__.
  unfold mbind at 1, M_bind at 1. cbn [OperatorBase.__init__ set_self modify].
  rewrite input_check, bool_decide_eq_false_2 by (by intros []).
  unfold mbind at 1, M_bind at 1.
  cbn [OperatorBase.add_input set_self modify self world op_class op_id
         inputs outputs attributes _on_attributes app].
  unfold mbind at 1, M_bind at 1.
  cbn [set_self modify self world op_class op_id inputs outputs attributes].
  erewrite init_prefix by done.
  rewrite bool_decide_eq_false_2 by (by intros []).
  destruct (with_arguments_input w input on_true on_false) as [Hget Hout].
  erewrite bind_run; [|by eapply output_feature_name_run].
  erewrite bind_run; [|reflexivity].
  erewrite bind_run; [|reflexivity].
  cbn [self world op_class op_id inputs outputs attributes _on_attributes].
  rewrite Hout. cbn [app].
  pose proof (check_passes w input on_true on_false
                (create_node_new_features_existing_sampling [(name, dtype)]
                   input (with_arguments w input on_true on_false)))
    as Hcheck.
  cbn zeta in Hcheck.
  assert (Hshape : op_class (with_arguments w input on_true on_false)
                   = WhereClass
                   ∧ op_id (with_arguments w input on_true on_false)
                     = next_id w) by (by destruct on_true, on_false).
  destruct Hshape as [-> ->]. by rewrite Hcheck.
Qed.

(** The three ways [_add_argument] fails, in the order of the source. *)
Lemma add_argument_other_sampling node arg_name input st :
  sampling_node input ≠ sampling_node node →
  _add_argument infer_from_value (Node node) arg_name input st
  = Raise SamplingMismatchError.
Proof.
  intros Hs. cbn. unfold check_same_sampling, mbind, M_bind, lift.
  by rewrite decide_False.
Qed.

Lemma add_argument_arity node arg_name input st :
  sampling_node input = sampling_node node →
  length (features (schema node)) ≠ 1 →
  _add_argument infer_from_value (Node node) arg_name input st
  = Raise (ValueError (ArgumentNotOneFeature arg_name
                         (length (features (schema node))))).
Proof.
  intros Hs Hlen. cbn. unfold check_same_sampling, mbind, M_bind, lift.
  rewrite decide_True by done. unfold feature_dtypes.
  rewrite length_fmap. by rewrite bool_decide_eq_true_2.
Qed.

Lemma add_argument_not_inferred value arg_name input st e :
  infer_from_value value = Raise e →
  _add_argument infer_from_value (Value value) arg_name input st = Raise e.
Proof. intros He. cbn. unfold mbind, M_bind, lift. by rewrite He. Qed.

(** A failure of [_add_argument] on [on_true], or on [on_false] once
    [on_true] is accepted, is the failure of the construction. *)
Lemma Where_fails_on_true input on_true on_false w e :
  feature_dtypes (schema input) = [BOOLEAN] →
  (∀ st, _add_argument infer_from_value on_true "on_true" input st = Raise e) →
  Where.Where infer_from_value input on_true on_false w = Raise e.
Proof.
  intros Hin Hfail. unfold Where.Where, OperatorBase.new, __init__.
  unfold mbind at 1, M_bind at 1. cbn [OperatorBase.__init__ set_self modify].
  rewrite input_check, bool_decide_eq_false_2 by (by intros []).
  unfold mbind at 1, M_bind at 1.
  cbn [OperatorBase.add_input set_self modify].
  unfold mbind at 1, M_bind at 1. cbn [set_self modify].
  by erewrite bind_fail.
Qed.

Lemma Where_fails_on_false input on_true on_false w dtype e :
  feature_dtypes (schema input) = [BOOLEAN] →
  accepts infer_from_value input on_true dtype →
  (∀ st, _add_argument infer_from_value on_false "on_false" input st
         = Raise e) →
  Where.Where infer_from_value input on_true on_false w = Raise e.
Proof.
  intros Hin Htrue Hfail. unfold Where.Where, OperatorBase.new, __init__.
  unfold mbind at 1, M_bind at 1. cbn [OperatorBase.__init__ set_self modify].
  rewrite input_check, bool_decide_eq_false_2 by (by intros []).
  unfold mbind at 1, M_bind at 1.
  cbn [OperatorBase.add_input set_self modify].
  unfold mbind at 1, M_bind at 1. cbn [set_self modify].
  erewrite bind_run; [|by apply add_argument_Ok].
  by erewrite bind_fail.
Qed.

(** A construction that returns has left the operator [finished]. *)
Lemma Where_Ok_finished input on_true on_false w op w' :
  Where.Where infer_from_value input on_true on_false w = Ok (op, w') →
  ∃ name dtype,
    features (schema input) = [(name, BOOLEAN)]
    ∧ accepts infer_from_value input on_true dtype
    ∧ accepts infer_from_value input on_false dtype
    ∧ op = finished w input on_true on_false name dtype
    ∧ w' = mkWorld (S (next_id w)).
Proof.
  intros Hop.
  destruct (Where_Ok _ _ _ _ _ _ _ Hop)
    as (name & dtype & Hfeatures & Htrue & Hfalse & _).
  rewrite (Where_run _ _ _ _ name dtype) in Hop by done.
  injection Hop as <- <-. by exists name, dtype.
Qed.

End facts.



(** X5: after a construction that returns, the [on_true] property of the
    operator is the scalar passed for [on_true], and None when a node was
    passed; likewise for [on_false]. *)
Theorem Where_scalar_properties :
  ∀ (infer_from_value : pyvalue → result DType) (input : EventSetNode)
    (on_true on_false : arg) (w w' : World) (op : Operator),
    Where.Where infer_from_value input on_true on_false w = Ok (op, w') →
    WhereProperties.on_true op = scalar_of on_true
    ∧ WhereProperties.on_false op = scalar_of on_false.
Proof.
  intros infer_from_value input on_true on_false w w' op Hop.
  apply Where_Ok_finished in Hop as (name & dtype & _ & _ & _ & -> & _).
  by destruct on_true, on_false.
Qed.

Lemma Where_scalar_properties_witness :
  WhereProperties.on_true
    (finished Samples.w0 Samples.bool_node (Node Samples.int_node)
       (Value (PyInt 0)) "flag" INT64)
  = scalar_of (Node Samples.int_node)
  ∧ WhereProperties.on_false
      (finished Samples.w0 Samples.bool_node (Node Samples.int_node)
         (Value (PyInt 0)) "flag" INT64)
    = scalar_of (Value (PyInt 0)).
Proof.
  apply (Where_scalar_properties Samples.infer Samples.bool_node
           (Node Samples.int_node) (Value (PyInt 0)) Samples.w0 (mkWorld 11)).
  vm_compute. reflexivity.
Defined.

(** X6: a construction that returns has recorded the input under ["input"]
    and each of [on_true] and [on_false] once under its own name: among the
    inputs when it is a node, among the attributes when it is a scalar, and
    never in both. *)
Theorem Where_records_arguments :
  ∀ (infer_from_value : pyvalue → result DType) (input : EventSetNode)
    (on_true on_false : arg) (w w' : World) (op : Operator),
    Where.Where infer_from_value input on_true on_false w = Ok (op, w') →
    dict_get "input" (inputs op) = Some input
    ∧ dict_get "on_true" (inputs op) = node_of on_true
    ∧ dict_get "on_false" (inputs op) = node_of on_false
    ∧ dict_get "on_true" (attributes op) = value_of on_true
    ∧ dict_get "on_false" (attributes op) = value_of on_false
    ∧ length (inputs op) + length (attributes op) = 3.
Proof.
  intros infer_from_value input on_true on_false w w' op Hop.
  apply Where_Ok_finished in Hop as (name & dtype & _ & _ & _ & -> & _).
  by destruct on_true, on_false.
Qed.

Lemma Where_records_arguments_witness :
  dict_get "input"
    (inputs (finished Samples.w0 Samples.bool_node (Node Samples.int_node)
               (Value (PyInt 0)) "flag" INT64)) = Some Samples.bool_node
  ∧ dict_get "on_true"
      (inputs (finished Samples.w0 Samples.bool_node (Node Samples.int_node)
                 (Value (PyInt 0)) "flag" INT64))
    = node_of (Node Samples.int_node)
  ∧ dict_get "on_false"
      (inputs (finished Samples.w0 Samples.bool_node (Node Samples.int_node)
                 (Value (PyInt 0)) "flag" INT64))
    = node_of (Value (PyInt 0))
  ∧ dict_get "on_true"
      (attributes (finished Samples.w0 Samples.bool_node
                     (Node Samples.int_node) (Value (PyInt 0)) "flag" INT64))
    = value_of (Node Samples.int_node)
  ∧ dict_get "on_false"
      (attributes (finished Samples.w0 Samples.bool_node
                     (Node Samples.int_node) (Value (PyInt 0)) "flag" INT64))
    = value_of (Value (PyInt 0))
  ∧ length (inputs (finished Samples.w0 Samples.bool_node
                      (Node Samples.int_node) (Value (PyInt 0)) "flag" INT64))
    + length (attributes (finished Samples.w0 Samples.bool_node
                            (Node Samples.int_node) (Value (PyInt 0)) "flag"
                            INT64)) = 3.
Proof.
  apply (Where_records_arguments Samples.infer Samples.bool_node
           (Node Samples.int_node) (Value (PyInt 0)) Samples.w0 (mkWorld 11)).
  vm_compute. reflexivity.
Defined.

(** X7: on an input with one BOOLEAN feature, a node passed for [on_true],
    or for [on_false] once [on_true] is accepted, is checked in the order of
    [_add_argument]: when its sampling is not the sampling of the input the
    construction fails with the sampling mismatch, whatever its features;
    when it shares the sampling and the number of its features is not 1, it
    fails with the [ValueError] "Argument '...' should have only 1 feature",
    which names the argument and the number of features. *)
Theorem Where_node_argument_errors :
  ∀ (infer_from_value : pyvalue → result DType) (input node : EventSetNode)
    (on_true on_false : arg) (arg_name : string) (w : World),
    feature_dtypes (schema input) = [BOOLEAN] →
    (arg_name = "on_true" ∧ on_true = Node node)
    ∨ (arg_name = "on_false" ∧ on_false = Node node
       ∧ ∃ dtype, accepts infer_from_value input on_true dtype) →
    (sampling_node input ≠ sampling_node node →
     Where.Where infer_from_value input on_true on_false w
     = Raise SamplingMismatchError)
    ∧ (sampling_node input = sampling_node node →
       length (features (schema node)) ≠ 1 →
       Where.Where infer_from_value input on_true on_false w
       = Raise (ValueError (ArgumentNotOneFeature arg_name
                              (length (features (schema node)))))).
Proof.
  intros infer_from_value input node on_true on_false arg_name w Hin
    [[-> ->]|(-> & -> & dtype & Htrue)]; split.
  - intros Hs. apply Where_fails_on_true; [done|].
    intros st. by apply add_argument_other_sampling.
  - intros Hs Hlen. apply Where_fails_on_true; [done|].
    intros st. by apply add_argument_arity.
  - intros Hs. apply (Where_fails_on_false _ _ _ _ _ dtype); [done..|].
    intros st. by apply add_argument_other_sampling.
  - intros Hs Hlen. apply (Where_fails_on_false _ _ _ _ _ dtype); [done..|].
    intros st. by apply add_argument_arity.
Qed.

Lemma Where_node_argument_errors_witness :
  Where.Where Samples.infer Samples.bool_node
    (Node Samples.other_sampling_int_node) (Node Samples.int_node) Samples.w0
  = Raise SamplingMismatchError
  ∧ Where.Where Samples.infer Samples.bool_node (Value (PyInt 1))
      (Node MoreSamples.three_feature_node) Samples.w0
    = Raise (ValueError (ArgumentNotOneFeature "on_false" 3)).
Proof.
  split.
  - apply (proj1 (Where_node_argument_errors Samples.infer Samples.bool_node
                    Samples.other_sampling_int_node
                    (Node Samples.other_sampling_int_node)
                    (Node Samples.int_node) "on_true" Samples.w0 eq_refl
                    (or_introl (conj eq_refl eq_refl)))).
    cbn. lia.
  - apply (proj2 (Where_node_argument_errors Samples.infer Samples.bool_node
                    MoreSamples.three_feature_node (Value (PyInt 1))
                    (Node MoreSamples.three_feature_node) "on_false"
                    Samples.w0 eq_refl
                    (or_intror (conj eq_refl (conj eq_refl
                       (ex_intro _ INT64 eq_refl)))))).
    + reflexivity.
    + cbn. lia.
Defined.

(** X8: the public [where] fails exactly as the construction of the operator
    fails, and adds no error of its own; when it returns, the node it returns
    has one feature, under the name of the boolean feature of the input and
    of the dtype of the two arguments, the indexes, the unix flag and the
    sampling of the input, and the new operator as creator. *)
Theorem where_returns_output :
  ∀ (infer_from_value : pyvalue → result DType) (input : EventSetNode)
    (on_true on_false : arg) (w : World),
    (∀ e,
       where_ infer_from_value input on_true on_false w = Raise e
       ↔ Where.Where infer_from_value input on_true on_false w = Raise e)
    ∧ (∀ output w',
         where_ infer_from_value input on_true on_false w = Ok (output, w') →
         ∃ name dtype,
           features (schema input) = [(name, BOOLEAN)]
           ∧ accepts infer_from_value input on_true dtype
           ∧ accepts infer_from_value input on_false dtype
           ∧ output = mkNode (mkSchema [(name, dtype)]
                                (indexes (schema input))
                                (is_unix_timestamp (schema input)))
                        (sampling_node input) (Some (next_id w))
           ∧ w' = mkWorld (S (next_id w))).
Proof.
  intros infer_from_value input on_true on_false w.
  unfold where_, mbind, M_bind.
  destruct (Where.Where infer_from_value input on_true on_false w)
    as [[op w1]|e1] eqn:Hop.
  - apply Where_Ok_finished in Hop
      as (name & dtype & Hfeatures & Htrue & Hfalse & -> & ->).
    assert (Hid : op_id (with_arguments w input on_true on_false) = next_id w)
      by (by destruct on_true, on_false).
    split.
    + intros e. by split.
    + intros output w'. cbn. intros [= <- <-]. exists name, dtype.
      repeat split; try done.
      unfold create_node_new_features_existing_sampling. by rewrite Hid.
  - split; [|by intros output w'].
    intros e. split; intros [= ->]; done.
Qed.

Lemma where_returns_output_witness :
  ∃ name dtype,
    features (schema Samples.bool_node) = [(name, BOOLEAN)]
    ∧ accepts Samples.infer Samples.bool_node (Node Samples.int_node) dtype
    ∧ accepts Samples.infer Samples.bool_node (Value (PyInt 0)) dtype
    ∧ mkNode (mkSchema [("flag", INT64)] [("store", INT64)] true) 3 (Some 10)
      = mkNode (mkSchema [(name, dtype)]
                  (indexes (schema Samples.bool_node))
                  (is_unix_timestamp (schema Samples.bool_node)))
          (sampling_node Samples.bool_node) (Some (next_id Samples.w0))
    ∧ mkWorld 11 = mkWorld (S (next_id Samples.w0)).
Proof.
  apply (proj2 (where_returns_output Samples.infer Samples.bool_node
                  (Node Samples.int_node) (Value (PyInt 0)) Samples.w0)).
  vm_compute. reflexivity.
Defined.

End WhereMore.

(** ** The numpy implementation of [Where] *)

Module WhereNumpyMore.

Import WhereNumpy WhereNumpyFacts.

Lemma placeholder_same_keys {ndarray : Type} (block : IndexData ndarray)
    (m1 m2 : gmap IndexKey (IndexData ndarray)) :
  dom m1 = dom m2 → (λ _, block) <$> m1 = (λ _, block) <$> m2.
Proof.
  intros Hdom. apply map_eq. intros index_key. rewrite !lookup_fmap.
  destruct (m1 !! index_key) as [b1|] eqn:H1,
           (m2 !! index_key) as [b2|] eqn:H2; try done.
  - apply not_elem_of_dom in H2. rewrite <- Hdom in H2.
    destruct H2. apply elem_of_dom. by eexists.
  - apply not_elem_of_dom in H1. rewrite Hdom in H1.
    destruct H1. apply elem_of_dom. by eexists.
Qed.

(** The result of [__call__] in terms of the index keys of the input. *)
Lemma Where_call_run {ndarray : Type} (operator : Operator)
    (input : EventSet ndarray) :
  __call__ operator input =
  if decide (op_class operator = WhereClass) then
    match output_schema operator "output" with
    | Ok sch =>
        Ok {[ "output" :=
                mkEventSet ((λ _, mkIndexData [] [1%float] sch) <$> data input)
                  sch ]}
    | Raise e => Raise e
    end
  else Raise AssertionError.
Proof.
  unfold __call__. destruct (decide _) as [Hcls|Hcls]; [|done]. cbn.
  destruct (output_schema operator "output") as [sch|e]; [|done]. cbn.
  destruct (fill_placeholder (mkIndexData [] [1%float] sch) sch (data input))
    as [Hdata Hsch].
  destruct (map_fold _ _ _) as [d s]. cbn in *. by subst.
Qed.

(** X9: [__call__] reads nothing of its input but the set of its index keys:
    on two inputs with the same index keys it returns the same thing, and
    raises the same error when it fails, whatever the operator. *)
Theorem Where_call_reads_keys_only :
  ∀ (ndarray : Type) (operator : Operator) (input1 input2 : EventSet ndarray),
    dom (data input1) = dom (data input2) →
    __call__ operator input1 = __call__ operator input2.
Proof.
  intros ndarray operator input1 input2 Hdom. rewrite !Where_call_run.
  destruct (decide _) as [Hcls|Hcls]; [|done].
  destruct (output_schema operator "output") as [sch|e]; [|done].
  by rewrite (placeholder_same_keys _ _ _ Hdom).
Qed.

Lemma Where_call_reads_keys_only_witness :
  __call__ (WhereProperties.finished Samples.w0 Samples.bool_node
              (Where.Node Samples.int_node) (Where.Value (PyInt 0)) "flag"
              INT64)
    Samples.where_evset
  = __call__ (WhereProperties.finished Samples.w0 Samples.bool_node
                (Where.Node Samples.int_node) (Where.Value (PyInt 0)) "flag"
                INT64)
      MoreSamples.other_where_evset.
Proof.
  apply (Where_call_reads_keys_only IntArrays.IntArray).
  vm_compute. reflexivity.
Defined.

(** X10: on a Where operator that was constructed, every block [__call__]
    returns has no feature array and one timestamp, although the schema it
    carries, the schema of the output node, has exactly one feature: the
    blocks never hold the features of their schema. The output has the index
    keys of the input and no other. *)
Theorem Where_call_blocks_miss_feature :
  ∀ (ndarray : Type) (infer_from_value : pyvalue → result DType)
    (input_node : EventSetNode) (on_true on_false : Where.arg) (w w' : World)
    (operator : Operator) (input : EventSet ndarray),
    Where.Where infer_from_value input_node on_true on_false w
    = Ok (operator, w') →
    ∃ output_evset,
      __call__ operator input = Ok {[ "output" := output_evset ]}
      ∧ dom (data output_evset) = dom (data input)
      ∧ length (features (evset_schema output_evset)) = 1
      ∧ ∀ index_key block,
          data output_evset !! index_key = Some block →
          length (idx_features block) = 0
          ∧ length (timestamps block) = 1
          ∧ length (features (idx_schema block)) = 1.
Proof.
  intros ndarray infer_from_value input_node on_true on_false w w' operator
    input Hop.
  apply WhereFacts.Where_Ok in Hop as (name & dtype & _ & _ & _ & Hcls & Hout).
  rewrite Where_call_run, decide_True by done.
  unfold output_schema. rewrite Hout. cbn.
  eexists. split; [done|]. cbn. split; [by rewrite dom_fmap_L|].
  split; [done|].
  intros index_key block. rewrite lookup_fmap.
  destruct (data input !! index_key); [|done]. by intros [= <-].
Qed.

Lemma Where_call_blocks_miss_feature_witness :
  ∃ output_evset,
    __call__ (WhereProperties.finished Samples.w0 Samples.bool_node
                (Where.Node Samples.int_node) (Where.Value (PyInt 0)) "flag"
                INT64)
      Samples.where_evset
    = Ok {[ "output" := output_evset ]}
    ∧ dom (data output_evset) = dom (data Samples.where_evset)
    ∧ length (features (evset_schema output_evset)) = 1
    ∧ ∀ index_key block,
        data output_evset !! index_key = Some block →
        length (idx_features block) = 0
        ∧ length (timestamps block) = 1
        ∧ length (features (idx_schema block)) = 1.
Proof.
  apply (Where_call_blocks_miss_feature _ Samples.infer Samples.bool_node
           (Where.Node Samples.int_node) (Where.Value (PyInt 0)) Samples.w0
           (mkWorld 11)).
  vm_compute. reflexivity.
Defined.

(** X11: the implementation refuses the operators of another class: on every
    operator that the construction of a Combine operator returns, both
    [__init__] and [__call__] fail their [assert isinstance(..., Where)]. *)
Theorem Where_implementation_refuses_Combine :
  ∀ (ndarray : Type) (args : list Combine.argument)
    (inputs : list (string * EventSetNode)) (w w' : World)
    (operator : Operator) (input : EventSet ndarray),
    Combine.Combine args inputs w = Ok (operator, w') →
    __init__ operator = Raise AssertionError
    ∧ __call__ operator input = Raise AssertionError.
Proof.
  intros ndarray args inputs w w' operator input Hop.
  apply CombineFacts.Combine_Ok in Hop
    as (_ & _ & k & first_input & rest & _ & _ & -> & _).
  by rewrite Where_call_run.
Qed.

Lemma Where_implementation_refuses_Combine_witness :
  __init__ (CombineSpec.built Samples.w0 Samples.ab_node
              [("input_0", Samples.ab_node); ("input_1", Samples.ba_node)])
  = Raise AssertionError
  ∧ __call__ (CombineSpec.built Samples.w0 Samples.ab_node
                [("input_0", Samples.ab_node); ("input_1", Samples.ba_node)])
      Samples.where_evset
    = Raise AssertionError.
Proof.
  apply (Where_implementation_refuses_Combine IntArrays.IntArray []
           [("input_0", Samples.ab_node); ("input_1", Samples.ba_node)]
           Samples.w0 (mkWorld 12)).
  vm_compute. reflexivity.
Defined.

End WhereNumpyMore.

(** ** The numpy implementation of [Cast] *)

Module CastNumpyMore.

Import CastNumpy CastSpec CastOrder CastNumpyFacts.

(** X12: [_can_overflow] never fails, not even with a [KeyError] on the
    dtypes that have no limits, and answers True exactly on the casts that
    go down in the order INT32 < INT64 < FLOAT32 < FLOAT64; a cast from or
    to BOOLEAN or STRING, to the same dtype or upwards is never checked. *)
Theorem can_overflow_narrowing :
  ∀ origin_dtype dst_dtype : DType,
    _can_overflow origin_dtype dst_dtype
    = Ok (narrows origin_dtype dst_dtype).
Proof. intros [] []; vm_compute; reflexivity. Qed.

Section facts.

Context {ndarray : Type} `{!Numpy ndarray}.

Implicit Types (operator : CastOperator) (feature : NumpyFeature ndarray)
  (event : NumpyEvent ndarray) (w : World).

(** What one step of the inner loop returns. *)
Lemma cast_feature_Ok operator feature w feature' w' :
  cast_feature operator feature w = Ok (feature', w') →
  (target_dtypes operator !! name feature = Some (dtype feature)
   ∧ feature' = feature ∧ w' = w)
  ∨ (∃ dst_dtype,
       target_dtypes operator !! name feature = Some dst_dtype
       ∧ dtype feature ≠ dst_dtype
       ∧ feature' = converted w feature dst_dtype
       ∧ w' = mkWorld (S (next_id w))).
Proof.
  destruct (target_dtypes operator !! name feature) as [dst_dtype|] eqn:Ht.
  2: { unfold cast_feature, target_dtype. rewrite Ht. done. }
  destruct (decide (dtype feature = dst_dtype)) as [<-|Hne].
  - rewrite cast_feature_unchanged by done. intros [= <- <-]. by left.
  - rewrite (cast_feature_changed _ _ dst_dtype) by done.
    destruct (if check_overflow operator then _ else _); [|done].
    intros [= <- <-]. right. by exists dst_dtype.
Qed.

Lemma mapM_Ok_cons {A B} (f : A → M World B) x l w l' w' :
  mapM f (x :: l) w = Ok (l', w') →
  ∃ y k w1, f x w = Ok (y, w1) ∧ mapM f l w1 = Ok (k, w') ∧ l' = y :: k.
Proof.
  rewrite mapM_cons. destruct (f x w) as [[y w1]|e]; [|done].
  destruct (mapM f l w1) as [[k w2]|e] eqn:Hl; [|done].
  intros [= <- <-]. by exists y, k, w1.
Qed.

Lemma cast_index_Ok operator (item item' : IndexKey * list (NumpyFeature ndarray))
    w w' :
  cast_index operator item w = Ok (item', w') →
  item'.1 = item.1
  ∧ mapM (cast_feature operator) item.2 w = Ok (item'.2, w').
Proof.
  rewrite cast_index_run.
  destruct (mapM (cast_feature operator) item.2 w) as [[fs' w1]|e]; [|done].
  by intros [= <- <-].
Qed.

(** The features keep their names. *)
Lemma cast_features_names operator features w features' w' :
  mapM (cast_feature operator) features w = Ok (features', w') →
  name <$> features' = name <$> features.
Proof.
  revert w features'. induction features as [|f fs IH]; intros w features'.
  { by intros [= <- <-]. }
  intros (f' & fs' & w1 & Hf & Hfs & ->)%mapM_Ok_cons. cbn.
  rewrite (IH _ _ Hfs). f_equal.
  apply cast_feature_Ok in Hf as [(_ & -> & _)|(d & _ & _ & -> & _)]; done.
Qed.

Lemma cast_indexes_layout operator
    (items items' : list (IndexKey * list (NumpyFeature ndarray))) w w' :
  mapM (cast_index operator) items w = Ok (items', w') →
  (λ item : IndexKey * list (NumpyFeature ndarray),
     (item.1, name <$> item.2)) <$> items'
  = (λ item : IndexKey * list (NumpyFeature ndarray),
       (item.1, name <$> item.2)) <$> items.
Proof.
  revert w items'. induction items as [|item items IH]; intros w items'.
  { by intros [= <- <-]. }
  intros (item' & is' & w1 & Hitem & Hitems & ->)%mapM_Ok_cons. cbn.
  rewrite (IH _ _ Hitems). f_equal.
  apply cast_index_Ok in Hitem as [-> Hfs].
  by rewrite (cast_features_names _ _ _ _ _ Hfs).
Qed.

(** One object is allocated for each feature that changes dtype. *)
Lemma cast_features_alloc operator features w features' w' :
  mapM (cast_feature operator) features w = Ok (features', w') →
  next_id w' = next_id w + changes operator features.
Proof.
  revert w features'. induction features as [|f fs IH]; intros w features'.
  { intros [= <- <-]. cbn. lia. }
  intros (f' & fs' & w1 & Hf & Hfs & ->)%mapM_Ok_cons.
  rewrite (IH _ _ Hfs). unfold changes. rewrite filter_cons.
  apply cast_feature_Ok in Hf as [(Ht & _ & ->)|(d & Ht & Hne & _ & ->)].
  - rewrite decide_False; [done|]. unfold changed.
    rewrite bool_decide_eq_false_2; [done|]. by intros [].
  - rewrite decide_True; [cbn; lia|]. unfold changed.
    apply bool_decide_eq_true_2. rewrite Ht. congruence.
Qed.

Lemma cast_indexes_alloc operator
    (items items' : list (IndexKey * list (NumpyFeature ndarray))) w w' :
  mapM (cast_index operator) items w = Ok (items', w') →
  next_id w' = next_id w
               + sum_list ((λ item : IndexKey * list (NumpyFeature ndarray),
                              changes operator item.2) <$> items).
Proof.
  revert w items'. induction items as [|item items IH]; intros w items'.
  { intros [= <- <-]. cbn. lia. }
  intros (item' & is' & w1 & Hitem & Hitems & ->)%mapM_Ok_cons.
  apply cast_index_Ok in Hitem as [_ Hfs].
  rewrite (IH _ _ Hitems), (cast_features_alloc _ _ _ _ _ Hfs). cbn. lia.
Qed.

(** What [all(...)] has seen when it answers. *)
Lemma all_unchanged_Ok_true operator (items : list (string * DType)) :
  all_unchanged operator items = Ok true →
  ∀ item, item ∈ items → target_dtypes operator !! item.1 = Some item.2.
Proof.
  induction items as [|[n d] items IH]; intros Hall item Hin.
  { by inversion Hin. }
  cbn in Hall. unfold target_dtype in Hall.
  destruct (target_dtypes operator !! n) as [dst|] eqn:Hn; [|done].
  cbn in Hall. destruct (decide (d = dst)) as [->|]; [|done].
  apply elem_of_cons in Hin as [->|Hin]; [done|]. by apply IH.
Qed.

Lemma all_unchanged_Ok_false operator (items : list (string * DType)) :
  all_unchanged operator items = Ok false →
  ∃ item, item ∈ items
          ∧ target_dtypes operator !! item.1 ≠ Some item.2.
Proof.
  induction items as [|[n d] items IH]; intros Hall; [done|].
  cbn in Hall. unfold target_dtype in Hall.
  destruct (target_dtypes operator !! n) as [dst|] eqn:Hn; [|done].
  cbn in Hall. destruct (decide (d = dst)) as [->|Hne].
  - destruct (IH Hall) as (item & Hin & Hitem). exists item.
    split; [by right|done].
  - exists (n, d). split; [by left|]. cbn. rewrite Hn. congruence.
Qed.

(** The first feature name without a target dtype stops [all(...)]. *)
Lemma all_unchanged_missing operator
    (before after : list (string * DType)) feature_name orig_dtype :
  (∀ item, item ∈ before → target_dtypes operator !! item.1 = Some item.2) →
  target_dtypes operator !! feature_name = None →
  all_unchanged operator (before ++ (feature_name, orig_dtype) :: after)
  = Raise (KeyError feature_name).
Proof.
  intros Hbefore Hnone. induction before as [|[n d] before IH]; cbn.
  - unfold target_dtype. by rewrite Hnone.
  - unfold target_dtype.
    pose proof (Hbefore (n, d) ltac:(by left)) as Hn. cbn in Hn. rewrite Hn.
    cbn. rewrite decide_True by done. apply IH.
    intros item Hin. apply Hbefore. by right.
Qed.

Lemma event_wf_keeps operator event :
  event_wf event →
  (∀ item, item ∈ dtypes event →
     target_dtypes operator !! item.1 = Some item.2) →
  keeps_dtypes operator event.
Proof.
  unfold event_wf, keeps_dtypes. rewrite !Forall_forall.
  intros Hwf Hall item Hitem. rewrite Forall_forall. intros f Hf.
  apply (Hall (name f, dtype f)). rewrite <- (Hwf item Hitem).
  by apply (list_elem_of_fmap_2 (λ f, (name f, dtype f))).
Qed.

Lemma keeps_no_changes operator event :
  keeps_dtypes operator event → event_changes operator event = 0.
Proof.
  unfold keeps_dtypes, event_changes.
  induction 1 as [|item items Hitem _ IH]; [done|]. cbn. rewrite IH.
  assert (changes operator item.2 = 0) as ->; [|done].
  unfold changes. induction Hitem as [|f fs Hf _ IHf]; [done|].
  rewrite filter_cons, decide_False; [done|]. unfold changed.
  rewrite bool_decide_eq_false_2; [done|]. by intros [].
Qed.

Lemma keeps_dtypes_call operator event w :
  keeps_dtypes operator event →
  __call__ operator event w = Ok ({[ "event" := event ]}, w).
Proof.
  intros Hkeep. rewrite call_run, all_unchanged_true; [done|].
  intros [n d] Hin. unfold keeps_dtypes in Hkeep. unfold dtypes in Hin.
  destruct (event_data event) as [|[k fs] items]; [by inversion Hin|].
  apply Forall_cons in Hkeep as [Hfs _]. rewrite Forall_forall in Hfs.
  apply list_elem_of_fmap in Hin as (f & [= -> ->] & Hf). by apply Hfs.
Qed.

(** With an [astype] that gives the dtype asked for, every feature the
    loop returns has its target dtype. *)
Lemma cast_features_targets operator features w features' w' :
  (∀ a dst_dtype, array_dtype (astype a dst_dtype) = dst_dtype) →
  mapM (cast_feature operator) features w = Ok (features', w') →
  Forall (λ feature, target_dtypes operator !! name feature
                     = Some (dtype feature)) features'.
Proof.
  intros Hastype. revert w features'.
  induction features as [|f fs IH]; intros w features'.
  { intros [= <- <-]. constructor. }
  intros (f' & fs' & w1 & Hf & Hfs & ->)%mapM_Ok_cons.
  constructor; [|by eapply IH].
  apply cast_feature_Ok in Hf as [(Ht & -> & _)|(d & Ht & _ & -> & _)];
    [done|].
  unfold dtype, converted. cbn. by rewrite Hastype.
Qed.

Lemma cast_indexes_targets operator
    (items items' : list (IndexKey * list (NumpyFeature ndarray))) w w' :
  (∀ a dst_dtype, array_dtype (astype a dst_dtype) = dst_dtype) →
  mapM (cast_index operator) items w = Ok (items', w') →
  Forall (λ item : IndexKey * list (NumpyFeature ndarray),
            Forall (λ feature, target_dtypes operator !! name feature
                               = Some (dtype feature)) item.2) items'.
Proof.
  intros Hastype. revert w items'.
  induction items as [|item items IH]; intros w items'.
  { intros [= <- <-]. constructor. }
  intros (item' & is' & w1 & Hitem & Hitems & ->)%mapM_Ok_cons.
  constructor; [|by eapply IH].
  apply cast_index_Ok in Hitem as [_ Hfs].
  by eapply cast_features_targets.
Qed.

Lemma Ok_event_inj (event event' : NumpyEvent ndarray) (w w' : World) :
  Ok ({[ "event" := event ]}, w)
  =@{result (gmap string (NumpyEvent ndarray) * World)}
    Ok ({[ "event" := event' ]}, w') →
  event = event'.
Proof.
  intros Heq.
  apply (f_equal (λ r, match r with
                       | Ok (m, _) => m !! "event"
                       | Raise _ => None
                       end)) in Heq.
  rewrite !lookup_singleton_eq in Heq. by injection Heq.
Qed.

(** The event [__call__] returns holds its target dtypes. *)
Lemma call_result_keeps operator event w event' w' :
  (∀ a dst_dtype, array_dtype (astype a dst_dtype) = dst_dtype) →
  event_wf event →
  __call__ operator event w = Ok ({[ "event" := event' ]}, w') →
  keeps_dtypes operator event'.
Proof.
  intros Hastype Hwf. rewrite call_run.
  destruct (all_unchanged operator (dtypes event)) as [[]|e] eqn:Hall;
    [| |done].
  - intros <-%Ok_event_inj.
    apply event_wf_keeps; [done|]. by apply all_unchanged_Ok_true.
  - destruct (mapM (cast_index operator) (event_data event) _)
      as [[items' w1]|e] eqn:Hitems; [|done].
    intros <-%Ok_event_inj.
    unfold keeps_dtypes. cbn. by eapply cast_indexes_targets.
Qed.

(** The features the loop returns are features of its input or new
    objects. *)
Lemma cast_features_fresh operator features w features' w' :
  mapM (cast_feature operator) features w = Ok (features', w') →
  ∀ feature', feature' ∈ features' →
    feature' ∈ features
    ∨ next_id w ≤ feature_id feature' < next_id w'.
Proof.
  revert w features'. induction features as [|f fs IH]; intros w features'.
  { intros [= <- <-] f' Hin. by inversion Hin. }
  intros (f' & fs' & w1 & Hf & Hfs & ->)%mapM_Ok_cons f0 Hin.
  pose proof (cast_features_alloc _ _ _ _ _ Hfs) as Halloc.
  apply elem_of_cons in Hin as [->|Hin].
  - apply cast_feature_Ok in Hf as [(_ & -> & _)|(d & _ & _ & -> & ->)].
    + left. by left.
    + right. cbn in *. lia.
  - destruct (IH _ _ Hfs f0 Hin) as [Hold|Hnew].
    + left. by right.
    + right. apply cast_feature_Ok in Hf as [(_ & _ & ->)|(d & _ & _ & _ & ->)];
        cbn in *; lia.
Qed.

Lemma cast_indexes_fresh operator
    (items items' : list (IndexKey * list (NumpyFeature ndarray))) w w' :
  mapM (cast_index operator) items w = Ok (items', w') →
  ∀ feature',
    feature' ∈ mjoin ((λ item : IndexKey * list (NumpyFeature ndarray),
                         item.2) <$> items') →
    feature' ∈ mjoin ((λ item : IndexKey * list (NumpyFeature ndarray),
                         item.2) <$> items)
    ∨ next_id w ≤ feature_id feature' < next_id w'.
Proof.
  revert w items'. induction items as [|item items IH]; intros w items'.
  { intros [= <- <-] f' Hin. by inversion Hin. }
  intros (item' & is' & w1 & Hitem & Hitems & ->)%mapM_Ok_cons f0 Hin.
  apply cast_index_Ok in Hitem as [_ Hfs].
  pose proof (cast_features_alloc _ _ _ _ _ Hfs) as Hitem_alloc.
  pose proof (cast_indexes_alloc _ _ _ _ _ Hitems) as Hitems_alloc.
  cbn in Hin |- *. rewrite elem_of_app in Hin. rewrite elem_of_app.
  destruct Hin as [Hin|Hin].
  - destruct (cast_features_fresh _ _ _ _ _ Hfs f0 Hin) as [Hold|Hnew].
    + left. by left.
    + right. lia.
  - destruct (IH _ _ Hitems f0 Hin) as [Hold|Hnew].
    + left. by right.
    + right. lia.
Qed.

Lemma changed_first_block operator event item :
  item ∈ dtypes event →
  target_dtypes operator !! item.1 ≠ Some item.2 →
  1 ≤ event_changes operator event.
Proof.
  unfold dtypes, event_changes.
  destruct (event_data event) as [|[k fs] items]; [by inversion 1|].
  intros (f & -> & Hf)%list_elem_of_fmap Hne. cbn in *.
  assert (Hin : f ∈ filter (λ feature, changed operator feature = true) fs).
  { apply list_elem_of_filter. split; [|done]. unfold changed.
    by apply bool_decide_eq_true_2. }
  unfold changes. destruct (filter _ fs); [by inversion Hin|]. cbn. lia.
Qed.

End facts.

(** X13: when the first feature name of the event that has no entry in
    [target_dtypes] comes after names whose dtype is unchanged, [__call__]
    fails with the [KeyError] of that name, before anything is cast or
    checked. *)
Theorem Cast_missing_target :
  ∀ (ndarray : Type) (numpy : Numpy ndarray) (operator : CastOperator)
    (event : NumpyEvent ndarray) (w : World)
    (before after : list (string * DType)) (feature_name : string)
    (orig_dtype : DType),
    dtypes event = before ++ (feature_name, orig_dtype) :: after →
    (∀ item, item ∈ before →
       target_dtypes operator !! item.1 = Some item.2) →
    target_dtypes operator !! feature_name = None →
    __call__ operator event w = Raise (KeyError feature_name).
Proof.
  intros ndarray numpy operator event w before after feature_name orig_dtype
    Hdtypes Hbefore Hnone.
  by rewrite call_run, Hdtypes, all_unchanged_missing.
Qed.

Lemma Cast_missing_target_witness :
  __call__ MoreSamples.unnamed_operator Samples.mixed_event Samples.w0
  = Raise (KeyError "sales").
Proof.
  apply (Cast_missing_target _ _ MoreSamples.unnamed_operator
           Samples.mixed_event Samples.w0 [("count", INT32)] []
           "sales" INT64).
  - reflexivity.
  - intros item Hitem. by apply list_elem_of_singleton in Hitem as ->.
  - reflexivity.
Defined.

(** X14: the event [__call__] returns has the index keys of the input, in the
    same order, each with as many features under the same names in the same
    order, and the sampling of the input: a cast renames and drops
    nothing. *)
Theorem Cast_keeps_layout :
  ∀ (ndarray : Type) (numpy : Numpy ndarray) (operator : CastOperator)
    (event : NumpyEvent ndarray) (w w' : World)
    (output : gmap string (NumpyEvent ndarray)),
    __call__ operator event w = Ok (output, w') →
    ∃ event',
      output = {[ "event" := event' ]}
      ∧ layout event' = layout event
      ∧ sampling event' = sampling event.
Proof.
  intros ndarray numpy operator event w w' output. rewrite call_run.
  destruct (all_unchanged operator (dtypes event)) as [[]|e]; [| |done].
  - intros [= <- <-]. by exists event.
  - destruct (mapM (cast_index operator) (event_data event) _)
      as [[items' w1]|e] eqn:Hitems; [|done].
    intros [= <- <-]. eexists. split; [done|]. split; [|done].
    unfold layout. cbn. by eapply cast_indexes_layout.
Qed.

Lemma Cast_keeps_layout_witness :
  ∃ event',
    {[ "event" := Samples.mixed_cast_result ]}
    =@{gmap string (NumpyEvent IntArrays.IntArray)} {[ "event" := event' ]}
    ∧ layout event' = layout Samples.mixed_event
    ∧ sampling event' = sampling Samples.mixed_event.
Proof.
  apply (Cast_keeps_layout _ _ (Samples.to_int32 false) Samples.mixed_event
           Samples.w0 (mkWorld 12)).
  vm_compute. reflexivity.
Defined.

(** X15: when [astype] gives arrays of the dtype asked for and the index keys
    of the event hold the features of one schema, every feature of the event
    [__call__] returns has its target dtype. *)
Theorem Cast_reaches_targets :
  ∀ (ndarray : Type) (numpy : Numpy ndarray) (operator : CastOperator)
    (event event' : NumpyEvent ndarray) (w w' : World),
    (∀ a dst_dtype, array_dtype (astype a dst_dtype) = dst_dtype) →
    event_wf event →
    __call__ operator event w = Ok ({[ "event" := event' ]}, w') →
    ∀ item feature,
      item ∈ event_data event' → feature ∈ item.2 →
      target_dtypes operator !! name feature = Some (dtype feature).
Proof.
  intros ndarray numpy operator event event' w w' Hastype Hwf Hcall
    item feature Hitem Hfeature.
  pose proof (call_result_keeps _ _ _ _ _ Hastype Hwf Hcall) as Hkeep.
  unfold keeps_dtypes in Hkeep. rewrite Forall_forall in Hkeep.
  specialize (Hkeep item Hitem). rewrite Forall_forall in Hkeep.
  by apply Hkeep.
Qed.

Lemma Cast_reaches_targets_witness :
  Forall (λ item : IndexKey * list (NumpyFeature IntArrays.IntArray),
            Forall (λ feature,
                      target_dtypes (Samples.to_int32 false) !! name feature
                      = Some (dtype feature)) item.2)
    (event_data Samples.mixed_cast_result).
Proof.
  apply Forall_forall. intros item Hitem.
  apply Forall_forall. intros feature Hfeature.
  apply (Cast_reaches_targets _ _ (Samples.to_int32 false)
           Samples.mixed_event Samples.mixed_cast_result Samples.w0
           (mkWorld 12)) with (item := item); [| | |done|done].
  - reflexivity.
  - by repeat constructor.
  - vm_compute. reflexivity.
Defined.

(** X16: under the same two conditions a cast is idempotent: cast again by
    the same operator, the event [__call__] returned is returned itself, and
    nothing is allocated. *)
Theorem Cast_idempotent :
  ∀ (ndarray : Type) (numpy : Numpy ndarray) (operator : CastOperator)
    (event event' : NumpyEvent ndarray) (w w' w'' : World),
    (∀ a dst_dtype, array_dtype (astype a dst_dtype) = dst_dtype) →
    event_wf event →
    __call__ operator event w = Ok ({[ "event" := event' ]}, w') →
    __call__ operator event' w'' = Ok ({[ "event" := event' ]}, w'').
Proof.
  intros ndarray numpy operator event event' w w' w'' Hastype Hwf Hcall.
  apply keeps_dtypes_call. by eapply call_result_keeps.
Qed.

Lemma Cast_idempotent_witness :
  __call__ (Samples.to_int32 false) Samples.mixed_cast_result (mkWorld 12)
  = Ok ({[ "event" := Samples.mixed_cast_result ]}, mkWorld 12).
Proof.
  apply (Cast_idempotent _ _ (Samples.to_int32 false) Samples.mixed_event
           Samples.mixed_cast_result Samples.w0 (mkWorld 12)).
  - reflexivity.
  - by repeat constructor.
  - vm_compute. reflexivity.
Defined.

(** X17: on an event whose index keys hold the features of one schema, a
    [__call__] that returns has allocated one feature object for each
    feature whose dtype is not its target dtype, and one event object if
    there is such a feature; it allocates nothing else. *)
Theorem Cast_allocation :
  ∀ (ndarray : Type) (numpy : Numpy ndarray) (operator : CastOperator)
    (event : NumpyEvent ndarray) (w w' : World)
    (output : gmap string (NumpyEvent ndarray)),
    event_wf event →
    __call__ operator event w = Ok (output, w') →
    next_id w'
    = next_id w + event_changes operator event
      + (if decide (event_changes operator event = 0) then 0 else 1).
Proof.
  intros ndarray numpy operator event w w' output Hwf. rewrite call_run.
  destruct (all_unchanged operator (dtypes event)) as [[]|e] eqn:Hall;
    [| |done].
  - intros [= <- <-].
    rewrite (keeps_no_changes operator event).
    + rewrite decide_True by done. lia.
    + apply event_wf_keeps; [done|]. by apply all_unchanged_Ok_true.
  - destruct (mapM (cast_index operator) (event_data event) _)
      as [[items' w1]|e] eqn:Hitems; [|done].
    intros [= <- <-].
    apply all_unchanged_Ok_false in Hall as (item & Hin & Hne).
    pose proof (changed_first_block operator event item Hin Hne) as Hpos.
    apply cast_indexes_alloc in Hitems. cbn in Hitems.
    fold (event_changes operator event) in Hitems.
    rewrite decide_False by lia. lia.
Qed.

Lemma Cast_allocation_witness :
  next_id (mkWorld 12)
  = next_id Samples.w0
    + event_changes (Samples.to_int32 false) Samples.mixed_event
    + (if decide (event_changes (Samples.to_int32 false) Samples.mixed_event
                  = 0) then 0 else 1).
Proof.
  apply (Cast_allocation _ _ (Samples.to_int32 false) Samples.mixed_event
           Samples.w0 (mkWorld 12) {[ "event" := Samples.mixed_cast_result ]}).
  - by repeat constructor.
  - vm_compute. reflexivity.
Defined.

(** X18: every feature of the event [__call__] returns is a feature object of
    the input event or an object allocated by this call, with an identity
    between the allocator before and after the call; the event returned is
    the input event or a new object. *)
Theorem Cast_fresh_identities :
  ∀ (ndarray : Type) (numpy : Numpy ndarray) (operator : CastOperator)
    (event : NumpyEvent ndarray) (w w' : World)
    (output : gmap string (NumpyEvent ndarray)),
    __call__ operator event w = Ok (output, w') →
    ∃ event',
      output = {[ "event" := event' ]}
      ∧ (event' = event ∨ event_id event' = next_id w)
      ∧ ∀ feature',
          feature' ∈ all_features event' →
          feature' ∈ all_features event
          ∨ next_id w < feature_id feature' < next_id w'.
Proof.
  intros ndarray numpy operator event w w' output. rewrite call_run.
  destruct (all_unchanged operator (dtypes event)) as [[]|e]; [| |done].
  - intros [= <- <-]. exists event. split; [done|]. split; [by left|].
    intros f' Hf'. by left.
  - destruct (mapM (cast_index operator) (event_data event) _)
      as [[items' w1]|e] eqn:Hitems; [|done].
    intros [= <- <-]. eexists. split; [done|]. split; [by right|].
    intros f' Hf'. unfold all_features in *. cbn in Hf'.
    destruct (cast_indexes_fresh _ _ _ _ _ Hitems f' Hf') as [Hold|Hnew].
    + by left.
    + right. cbn in Hnew. lia.
Qed.

Lemma Cast_fresh_identities_witness :
  ∃ event',
    {[ "event" := Samples.mixed_cast_result ]}
    =@{gmap string (NumpyEvent IntArrays.IntArray)} {[ "event" := event' ]}
    ∧ (event' = Samples.mixed_event ∨ event_id event' = next_id Samples.w0)
    ∧ ∀ feature',
        feature' ∈ all_features event' →
        feature' ∈ all_features Samples.mixed_event
        ∨ next_id Samples.w0 < feature_id feature' < next_id (mkWorld 12).
Proof.
  apply (Cast_fresh_identities _ _ (Samples.to_int32 false)
           Samples.mixed_event Samples.w0 (mkWorld 12)).
  vm_compute. reflexivity.
Defined.

End CastNumpyMore.
